(** * IoT device simulator and gateway pipeline

    A shallow embedding of the telemetry pipeline:

    - [common/packet.h]              the [IoTPacket] record;
    - [gateway/gateway.cpp]          [validate_packet], [send_batch_to_server],
                                     [process_packet] and the global
                                     [batch_buffer];
    - [gateway/anomaly_detector.cpp] [is_anomalous];
    - [device/esp32_simulator.cpp]   [generate_packet] and [seq_counter];
    - [main.cpp]                     the twelve-iteration driver loop.

    Machine data is modelled as the program has it.  An [int] is a [Z] in
    the 32-bit two's-complement range, a [std::time_t] a [Z] in the 64-bit
    range, and a [float] an IEEE-754 binary32 datum ([spec_float] with
    precision 24 and maximal exponent 128), compared with the IEEE
    comparison of the standard library, under which a NaN is neither
    below, equal to, nor above anything.

    Reads of the environment are explicit arguments: the value returned by
    [std::time(nullptr)] is the argument [now], the values returned by
    [rand()] are the fields of a [draws] record.  Writes to [std::cout]
    are appended to a list of stream insertions kept in the state. *)

From Stdlib Require Import ZArith Bool Ascii String List Lia.
From Stdlib Require Import Floats.SpecFloat.
Import ListNotations.
Open Scope Z_scope.

(** ** Machine integers *)

Definition INT_MIN : Z := - 2 ^ 31.
Definition INT_MAX : Z := 2 ^ 31 - 1.
Definition TIME_MIN : Z := - 2 ^ 63.
Definition TIME_MAX : Z := 2 ^ 63 - 1.

(** Two's-complement reduction to [bits] bits.  Signed overflow is
    undefined in C++; the model shows what the usual targets compute, and
    every statement that relies on an addition staying in range says so. *)
Definition wrap_signed (bits : Z) (z : Z) : Z :=
  (z + 2 ^ (bits - 1)) mod 2 ^ bits - 2 ^ (bits - 1).

Definition int_add (a b : Z) : Z := wrap_signed 32 (a + b).
Definition time_add (a b : Z) : Z := wrap_signed 64 (a + b).

(** ** Single-precision floats *)

Definition float : Type := spec_float.

Definition prec32 : Z := 24.
Definition emax32 : Z := 128.

(** Conversion of an [int] to [float], as the usual arithmetic conversions
    do when an [int] meets a [float] operand or is assigned to a [float]
    field (round to nearest even; exact below 2^24). *)
Definition float_of_int (z : Z) : float :=
  binary_normalize prec32 emax32 z 0 false.

Definition flt (x y : float) : bool := SFltb x y.   (* x < y  *)
Definition fgt (x y : float) : bool := SFltb y x.   (* x > y  *)
Definition fle (x y : float) : bool := SFleb x y.   (* x <= y *)

Definition is_nan (x : float) : bool :=
  match x with S754_nan => true | _ => false end.

(** Membership of a float in the closed interval [lo, hi]. *)
Definition in_interval (lo hi : Z) (x : float) : bool :=
  fle (float_of_int lo) x && fle x (float_of_int hi).

(** ** common/packet.h *)

Record IoTPacket : Type := mkPacket {
  device_id     : string;
  sequence_no   : Z;        (* int *)
  temperature   : float;
  humidity      : float;
  packet_rate   : Z;        (* int *)
  cpu_usage     : float;
  battery_level : float;
  timestamp     : Z         (* std::time_t *)
}.

(** ** gateway/anomaly_detector.cpp *)

Definition is_anomalous (pkt : IoTPacket) : bool :=
  if fgt (temperature pkt) (float_of_int 60) then true
  else if packet_rate pkt >? 100 then true
  else false.

(** ** gateway/gateway.cpp *)

Definition BATCH_SIZE : nat := 5.

(** [now] is the value of [std::time(nullptr)] read on line 16. *)
Definition validate_packet (now : Z) (pkt : IoTPacket) : bool :=
  if sequence_no pkt <=? 0 then false
  else if flt (temperature pkt) (float_of_int (-20))
          || fgt (temperature pkt) (float_of_int 100) then false
  else if flt (cpu_usage pkt) (float_of_int 0)
          || fgt (cpu_usage pkt) (float_of_int 100) then false
  else if flt (battery_level pkt) (float_of_int 0)
          || fgt (battery_level pkt) (float_of_int 100) then false
  else if timestamp pkt >? time_add now 5 then false
  else true.

(** One insertion into [std::cout], by overload of [operator<<]. *)
Inductive out_item : Type :=
| OLit   (s : string)     (* string literal, const char* *)
| OStr   (s : string)     (* std::string *)
| OInt   (z : Z)          (* int *)
| OFloat (f : float)      (* float *)
| OTime  (t : Z)          (* std::time_t *)
| OEndl.                  (* std::endl *)

(** The global [batch_buffer] together with what has been written to
    [std::cout] so far. *)
Record gateway : Type := mkGateway {
  batch_buffer : list IoTPacket;
  cout         : list out_item
}.

Definition gateway_init : gateway := mkGateway [] [].

Definition newline : string := String (ascii_of_nat 10) EmptyString.

Definition batch_header_text : string :=
  (newline ++ "[SENDING BATCH TO SERVER]" ++ newline)%string.

Definition batch_header : out_item := OLit batch_header_text.

(** The body of the range-for loop of [send_batch_to_server]. *)
Definition packet_line (pkt : IoTPacket) : list out_item :=
  [ OStr (device_id pkt);       OLit ", ";
    OInt (sequence_no pkt);     OLit ", ";
    OFloat (temperature pkt);   OLit ", ";
    OFloat (humidity pkt);      OLit ", ";
    OInt (packet_rate pkt);     OLit ", ";
    OFloat (cpu_usage pkt);     OLit ", ";
    OFloat (battery_level pkt); OLit ", ";
    OTime (timestamp pkt);      OEndl ].

Definition send_batch_to_server (g : gateway) : gateway :=
  mkGateway []
            (cout g ++ batch_header :: flat_map packet_line (batch_buffer g)).

Definition invalid_line (pkt : IoTPacket) : list out_item :=
  [ OLit "[INVALID PACKET DROPPED] Seq: "; OInt (sequence_no pkt); OEndl ].

(** Line 49: [batch_buffer.push_back(pkt)]. *)
Definition push_back (pkt : IoTPacket) (g : gateway) : gateway :=
  mkGateway (batch_buffer g ++ [pkt]) (cout g).

(** Lines 51-53: flush when the buffer has reached [BATCH_SIZE]. *)
Definition flush_if_full (g : gateway) : gateway :=
  if (BATCH_SIZE <=? length (batch_buffer g))%nat
  then send_batch_to_server g
  else g.

Definition process_packet (now : Z) (pkt : IoTPacket) (g : gateway) : gateway :=
  if negb (validate_packet now pkt)
  then mkGateway (batch_buffer g) (cout g ++ invalid_line pkt)
  else flush_if_full (push_back pkt g).

(** A sequence of [process_packet] calls; each call comes with the clock
    value its validation reads. *)
Definition process_all (calls : list (Z * IoTPacket)) (g : gateway) : gateway :=
  fold_left (fun g c => process_packet (fst c) (snd c) g) calls g.

(** Number of flushes recorded on the output: the header literal is
    written once per call of [send_batch_to_server] and nowhere else. *)
Definition is_batch_header (o : out_item) : bool :=
  match o with
  | OLit s => String.eqb s batch_header_text
  | _ => false
  end.

Definition flush_count (out : list out_item) : nat :=
  List.length (filter is_batch_header out).

(** The two statements that touch [batch_buffer]: the [push_back] of line
    49 and a call of [send_batch_to_server]. *)
Inductive buffer_op : Type :=
| Append (pkt : IoTPacket)
| Flush.

Definition apply_op (g : gateway) (op : buffer_op) : gateway :=
  match op with
  | Append pkt => push_back pkt g
  | Flush => send_batch_to_server g
  end.

Definition run_ops (ops : list buffer_op) (g : gateway) : gateway :=
  fold_left apply_op ops g.

Definition is_flush (op : buffer_op) : bool :=
  match op with Flush => true | Append _ => false end.

(** The packets appended after the last [Flush] of a history, read off
    the history itself, oldest first. *)
Fixpoint appended_since_last_flush (ops : list buffer_op) : list IoTPacket :=
  match ops with
  | [] => []
  | Flush :: rest => appended_since_last_flush rest
  | Append pkt :: rest =>
      if existsb is_flush rest
      then appended_since_last_flush rest
      else pkt :: appended_since_last_flush rest
  end.

(** ** device/esp32_simulator.cpp *)

(** The five values returned by [rand()] during one call of
    [generate_packet], in call order. *)
Record draws : Type := mkDraws {
  draw_temperature   : Z;
  draw_humidity      : Z;
  draw_packet_rate   : Z;
  draw_cpu_usage     : Z;
  draw_battery_level : Z
}.

Definition RAND_MAX : Z := 2147483647.

Definition draws_ok (d : draws) : Prop :=
  0 <= draw_temperature d <= RAND_MAX /\
  0 <= draw_humidity d <= RAND_MAX /\
  0 <= draw_packet_rate d <= RAND_MAX /\
  0 <= draw_cpu_usage d <= RAND_MAX /\
  0 <= draw_battery_level d <= RAND_MAX.

(** [seq_counter] is the static counter, passed in and returned; [now] is
    the value of [std::time(nullptr)] read on line 11. *)
Definition generate_packet (now : Z) (d : draws) (seq_counter : Z)
  : IoTPacket * Z :=
  let seq_counter' := int_add seq_counter 1 in
  ( {| device_id     := "ESP32_SIM_01";
       sequence_no   := seq_counter';
       temperature   := float_of_int (int_add 25 (Z.rem (draw_temperature d) 10));
       humidity      := float_of_int (int_add 45 (Z.rem (draw_humidity d) 20));
       packet_rate   := int_add 10 (Z.rem (draw_packet_rate d) 10);
       cpu_usage     := float_of_int (int_add 20 (Z.rem (draw_cpu_usage d) 60));
       battery_level := float_of_int (int_add 30 (Z.rem (draw_battery_level d) 70));
       timestamp     := now |},
    seq_counter' ).

(** The generator called over and over, starting with [seq_counter = 0].
    [env k] is what the environment hands to call number [k + 1]: the
    clock value and the random draws. *)
Definition gen_env : Type := N -> Z * draws.

Definition gen_step (env : gen_env) (st : N * Z) : N * Z :=
  (N.succ (fst st),
   snd (generate_packet (fst (env (fst st))) (snd (env (fst st))) (snd st))).

Definition seq_counter_after (env : gen_env) (n : N) : Z :=
  snd (N.iter n (gen_step env) (0%N, 0)).

(** The packet returned by the [n]-th call, [n >= 1]. *)
Definition nth_generated (env : gen_env) (n : N) : IoTPacket :=
  fst (generate_packet (fst (env (N.pred n))) (snd (env (N.pred n)))
                       (seq_counter_after env (N.pred n))).

(** ** main.cpp *)

Record world : Type := mkWorld {
  seq_counter : Z;
  gw          : gateway
}.

Definition world_init : world := mkWorld 0 gateway_init.

Definition device_log (pkt : IoTPacket) : list out_item :=
  [ OLit "[DEVICE LOG] "; OStr (device_id pkt);
    OLit " Seq:";     OInt (sequence_no pkt);
    OLit " Temp:";    OFloat (temperature pkt);
    OLit " CPU:";     OFloat (cpu_usage pkt);
    OLit " Battery:"; OFloat (battery_level pkt);
    OEndl ].

(** What the environment supplies during one iteration of the loop. *)
Record tick : Type := mkTick {
  gen_time   : Z;        (* std::time(nullptr) inside generate_packet *)
  gen_draws  : draws;
  gate_time  : Z         (* std::time(nullptr) inside validate_packet *)
}.

Definition main_iteration (w : world) (e : tick) : world :=
  let (pkt, c) := generate_packet (gen_time e) (gen_draws e) (seq_counter w) in
  let g := mkGateway (batch_buffer (gw w)) (cout (gw w) ++ device_log pkt) in
  mkWorld c (process_packet (gate_time e) pkt g).

Definition main_loop (env : list tick) (w : world) : world :=
  fold_left main_iteration env w.

(** [for (int i = 0; i < 12; i++)]: iteration [i] uses [env i].  The call
    [srand(time(nullptr))] of line 9 only selects the stream of draws,
    which the environment supplies. *)
Definition main (env : nat -> tick) : world :=
  main_loop (map env (seq 0 12)) world_init.

(** ** Vocabulary of the statements *)

(** A float reading compared with an integer bound, as the code compares
    them.  A NaN is neither [below] nor [above] any bound. *)
Definition below (x : float) (z : Z) : Prop := flt x (float_of_int z) = true.
Definition above (x : float) (z : Z) : Prop := fgt x (float_of_int z) = true.

(** The clock value is a [std::time_t] and the tolerance of five seconds
    can be added to it without leaving the type. *)
Definition clock_ok (now : Z) : Prop := TIME_MIN <= now /\ now + 5 <= TIME_MAX.

(** A call of [process_packet] whose packet passes validation at the
    clock value the call reads. *)
Definition valid_call (c : Z * IoTPacket) : Prop :=
  validate_packet (fst c) (snd c) = true.

(** The integer bounds the program compares float readings with, and the
    integers a generated reading can be. *)
Definition float_bounds : list Z := [-20; 0; 60; 100].
Definition small_readings : list Z := map Z.of_nat (seq 0 129).

(** On these, the IEEE comparisons of the converted values agree with the
    order of the integers (checked value by value). *)
Definition float_order_table : bool :=
  forallb (fun c =>
    forallb (fun v =>
      Bool.eqb (flt (float_of_int v) (float_of_int c)) (v <? c) &&
      Bool.eqb (fgt (float_of_int v) (float_of_int c)) (c <? v) &&
      Bool.eqb (fle (float_of_int c) (float_of_int v)) (c <=? v) &&
      Bool.eqb (fle (float_of_int v) (float_of_int c)) (v <=? c))
    small_readings) float_bounds.

(** The boolean form of [valid_call]. *)
Definition validb (c : Z * IoTPacket) : bool :=
  validate_packet (fst c) (snd c).

(** The packets of a sequence of calls that pass validation, in order. *)
Definition accepted (calls : list (Z * IoTPacket)) : list IoTPacket :=
  map snd (filter validb calls).

(** Occurrences of a string literal on the output. *)
Definition is_literal (s : string) (o : out_item) : bool :=
  match o with
  | OLit s' => String.eqb s' s
  | _ => false
  end.

Definition count_literal (s : string) (out : list out_item) : nat :=
  List.length (filter (is_literal s) out).

Definition invalid_text : string := "[INVALID PACKET DROPPED] Seq: ".
Definition device_log_text : string := "[DEVICE LOG] ".

(** The output without the batch headers. *)
Definition without_headers (out : list out_item) : list out_item :=
  filter (fun o => negb (is_batch_header o)) out.

(** What one iteration of the loop of [main] needs from its environment:
    draws that [rand()] can return, a gateway clock to which the tolerance
    can be added, and a packet stamped no later than that clock plus the
    tolerance (in particular: a clock that does not run backwards). *)
Definition tick_ok (e : tick) : Prop :=
  draws_ok (gen_draws e) /\
  clock_ok (gate_time e) /\
  gen_time e <= gate_time e + 5.

(** The state of [main] after [k] iterations that all produced valid
    packets: the counter is [k], [k / 5] batches went out, and the buffer
    holds the packets numbered after the last multiple of five. *)
Definition after_iterations (k : nat) (w : world) : Prop :=
  seq_counter w = Z.of_nat k /\
  flush_count (cout (gw w)) = (k / BATCH_SIZE)%nat /\
  map sequence_no (batch_buffer (gw w)) =
    map Z.of_nat (seq (BATCH_SIZE * (k / BATCH_SIZE) + 1) (k mod BATCH_SIZE)) /\
  count_literal device_log_text (cout (gw w)) = k /\
  count_literal invalid_text (cout (gw w)) = 0%nat.

(** An environment for [main]: a fixed clock and fixed draws. *)
Definition still_tick : tick := mkTick 1700000000 (mkDraws 7 7 7 7 7) 1700000000.

(** ** Fixtures *)

(** A clock value and packets used to instantiate the statements. *)
Definition t0 : Z := 1700000000.

Definition sample_packet (seq : Z) : IoTPacket :=
  {| device_id := "ESP32_SIM_01"; sequence_no := seq;
     temperature := float_of_int 25; humidity := float_of_int 45;
     packet_rate := 10;
     cpu_usage := float_of_int 20; battery_level := float_of_int 30;
     timestamp := t0 |}.


(** A packet with the given temperature and packet rate. *)
Definition reading (temp : float) (rate : Z) : IoTPacket :=
  {| device_id := "ESP32_SIM_01"; sequence_no := 1;
     temperature := temp; humidity := float_of_int 45;
     packet_rate := rate;
     cpu_usage := float_of_int 20; battery_level := float_of_int 30;
     timestamp := t0 |}.

(** A packet whose temperature field holds a NaN. *)
Definition nan_packet : IoTPacket := reading S754_nan 10.

(** Valid calls carrying the sequence numbers [first], [first + 1], ... *)
Fixpoint sample_calls (n : nat) (first : Z) : list (Z * IoTPacket) :=
  match n with
  | O => []
  | S n' => (t0, sample_packet first) :: sample_calls n' (first + 1)
  end.

(** An environment for the generator: a fixed clock value and draws. *)
Definition still_env : gen_env := fun _ => (t0, mkDraws 0 0 0 0 0).

(** ** Properties *)

(** *** IEEE comparison *)

Lemma SFcompare_antisym (x y : float) :
  SFcompare y x = option_map CompOpp (SFcompare x y).
Proof.
  destruct x as [sx | sx | | sx mx ex], y as [sy | sy | | sy my ey];
    cbn [SFcompare option_map];
    try (destruct sx); try (destruct sy); try reflexivity.
  all: rewrite (Z.compare_antisym ey ex);
    destruct (ey ?= ex); cbn [CompOpp]; try reflexivity;
    rewrite (Pos.compare_cont_antisym mx my Eq); reflexivity.
Qed.

Lemma fle_not_fgt (x y : float) : fle x y = true -> fgt x y = false.
Proof.
  unfold fle, fgt, SFleb, SFltb. rewrite (SFcompare_antisym x y).
  destruct (SFcompare x y) as [[ | | ] | ]; cbn; congruence.
Qed.

Lemma fle_not_flt (x y : float) : fle x y = true -> flt y x = false.
Proof. apply fle_not_fgt. Qed.

(** Away from NaN the order is total: what is not inside a closed
    interval is below its lower end or above its upper end. *)
Lemma fle_total (x y : float) :
  is_nan x = false -> is_nan y = false -> fle x y = false -> flt y x = true.
Proof.
  unfold fle, flt, SFleb, SFltb. rewrite (SFcompare_antisym x y).
  destruct x, y; cbn [is_nan]; try discriminate; intros _ _;
    destruct (SFcompare _ _) as [[ | | ] | ] eqn:E; cbn; try congruence;
    cbn in E; repeat match type of E with
                     | context [if ?b then _ else _] => destruct b
                     end; discriminate.
Qed.

(** The constants of the comparisons, as binary32 data:
    -20 = -(10485760 * 2^-19) and 100 = 13107200 * 2^-17. *)
Example float_m20 : float_of_int (-20) = S754_finite true 10485760 (-19).
Proof. reflexivity. Qed.

Example float_100 : float_of_int 100 = S754_finite false 13107200 (-17).
Proof. reflexivity. Qed.

Example float_0 : float_of_int 0 = S754_zero false.
Proof. reflexivity. Qed.

Example infinity_rejected :
  validate_packet t0 (reading (S754_infinity false) 10) = false /\
  validate_packet t0 (reading (S754_infinity true) 10) = false.
Proof. split; reflexivity. Qed.

(** *** Machine arithmetic *)

Lemma wrap_signed_small (bits z : Z) :
  0 < bits -> - 2 ^ (bits - 1) <= z < 2 ^ (bits - 1) -> wrap_signed bits z = z.
Proof.
  intros Hb Hz. unfold wrap_signed.
  assert (E : 2 ^ bits = 2 * 2 ^ (bits - 1)).
  { replace bits with (Z.succ (bits - 1)) at 1 by lia.
    rewrite Z.pow_succ_r by lia. reflexivity. }
  rewrite Z.mod_small by lia. lia.
Qed.

Lemma time_add_exact (a b : Z) :
  TIME_MIN <= a + b <= TIME_MAX -> time_add a b = a + b.
Proof.
  unfold TIME_MIN, TIME_MAX, time_add. intros H.
  apply wrap_signed_small; [lia | ]. change (64 - 1) with 63. lia.
Qed.

Lemma int_add_exact (a b : Z) :
  INT_MIN <= a + b <= INT_MAX -> int_add a b = a + b.
Proof.
  unfold INT_MIN, INT_MAX, int_add. intros H.
  apply wrap_signed_small; [lia | ]. change (32 - 1) with 31. lia.
Qed.

Lemma clock_ok_add (now : Z) : clock_ok now -> time_add now 5 = now + 5.
Proof. intros [H1 H2]. apply time_add_exact. lia. Qed.

(** *** The validator *)

(** [validate_packet] as one boolean formula over its five checks. *)
Lemma validate_packet_formula (now : Z) (pkt : IoTPacket) :
  validate_packet now pkt =
  negb ((sequence_no pkt <=? 0)
        || flt (temperature pkt) (float_of_int (-20))
        || fgt (temperature pkt) (float_of_int 100)
        || flt (cpu_usage pkt) (float_of_int 0)
        || fgt (cpu_usage pkt) (float_of_int 100)
        || flt (battery_level pkt) (float_of_int 0)
        || fgt (battery_level pkt) (float_of_int 100)
        || (timestamp pkt >? time_add now 5)).
Proof.
  unfold validate_packet.
  destruct (sequence_no pkt <=? 0); [reflexivity | ].
  repeat match goal with
         | |- context [if ?a || ?b then _ else _] =>
             destruct a; [reflexivity | destruct b; [reflexivity | ] ]
         end.
  destruct (timestamp pkt >? time_add now 5); reflexivity.
Qed.

Lemma validate_packet_false_iff (now : Z) (pkt : IoTPacket) :
  validate_packet now pkt = false <->
  sequence_no pkt <= 0 \/
  flt (temperature pkt) (float_of_int (-20)) = true \/
  fgt (temperature pkt) (float_of_int 100) = true \/
  flt (cpu_usage pkt) (float_of_int 0) = true \/
  fgt (cpu_usage pkt) (float_of_int 100) = true \/
  flt (battery_level pkt) (float_of_int 0) = true \/
  fgt (battery_level pkt) (float_of_int 100) = true \/
  timestamp pkt > time_add now 5.
Proof.
  rewrite validate_packet_formula, negb_false_iff, !orb_true_iff.
  rewrite Z.leb_le, Z.gtb_gt. tauto.
Qed.

(** At the last clock value of [std::time_t] the sum [now + 5] leaves the
    type: a packet with every field in range and a timestamp far below
    [now + 5] is rejected, although none of the eight conditions holds. *)
Lemma clock_overflow_rejects_valid_packet :
  validate_packet TIME_MAX (sample_packet 1) = false /\
  ~ (sequence_no (sample_packet 1) <= 0 \/
     below (temperature (sample_packet 1)) (-20) \/
     above (temperature (sample_packet 1)) 100 \/
     below (cpu_usage (sample_packet 1)) 0 \/
     above (cpu_usage (sample_packet 1)) 100 \/
     below (battery_level (sample_packet 1)) 0 \/
     above (battery_level (sample_packet 1)) 100 \/
     timestamp (sample_packet 1) > TIME_MAX + 5).
Proof.
  split; [vm_compute; reflexivity | ].
  unfold below, above. intros H.
  repeat destruct H as [H | H];
    try (vm_compute in H; discriminate H);
    cbn in H; unfold t0, TIME_MAX in H; lia.
Qed.

(** C1, amended.  For every packet and every clock value [now] of
    [std::time_t] to which 5 can be added without leaving the type
    ([TIME_MIN <= now <= TIME_MAX - 5]), [validate_packet] returns [false]
    exactly when the sequence number is not positive, or the temperature
    is below -20 or above 100,
    or the CPU usage is below 0 or above 100, or the battery level is
    below 0 or above 100, or the timestamp is later than [now + 5]; in
    every other case it returns [true].  The verdict is the boolean result
    of a total function: there is no other outcome. *)
Theorem validate_packet_rejects_iff (now : Z) (pkt : IoTPacket) :
  clock_ok now ->
  let reject :=
    sequence_no pkt <= 0 \/
    below (temperature pkt) (-20) \/ above (temperature pkt) 100 \/
    below (cpu_usage pkt) 0 \/ above (cpu_usage pkt) 100 \/
    below (battery_level pkt) 0 \/ above (battery_level pkt) 100 \/
    timestamp pkt > now + 5 in
  (validate_packet now pkt = false <-> reject) /\
  (validate_packet now pkt = true <-> ~ reject).
Proof.
  intros Hclk reject. subst reject. unfold below, above.
  rewrite <- (clock_ok_add now Hclk).
  split; [apply validate_packet_false_iff | ].
  rewrite <- validate_packet_false_iff.
  destruct (validate_packet now pkt); split; congruence.
Qed.

Lemma clock_ok_t0 : clock_ok t0.
Proof. unfold clock_ok, t0, TIME_MIN, TIME_MAX. lia. Qed.

Lemma validate_packet_rejects_iff_witness :
  clock_ok t0 /\ validate_packet t0 (sample_packet 0) = false.
Proof.
  split; [exact clock_ok_t0 | ].
  apply (proj1 (validate_packet_rejects_iff t0 (sample_packet 0) clock_ok_t0)).
  left. cbn. lia.
Defined.

(** What lies inside a closed interval is neither below its lower end nor
    above its upper end. *)
Lemma in_interval_inside (lo hi : Z) (x : float) :
  in_interval lo hi x = true ->
  flt x (float_of_int lo) = false /\ fgt x (float_of_int hi) = false.
Proof.
  unfold in_interval. rewrite andb_true_iff. intros [H1 H2].
  split; [apply fle_not_flt | apply fle_not_fgt]; assumption.
Qed.

Lemma float_of_int_not_nan_20_100 :
  is_nan (float_of_int (-20)) = false /\ is_nan (float_of_int 100) = false.
Proof. split; reflexivity. Qed.

(** A reading that is a number (possibly infinite) and not inside the
    interval is below its lower end or above its upper end. *)
Lemma in_interval_outside (x : float) :
  is_nan x = false -> in_interval (-20) 100 x = false ->
  below x (-20) \/ above x 100.
Proof.
  unfold in_interval, below, above. intros Hx H.
  apply andb_false_iff in H. destruct H as [H | H]; [left | right].
  - apply fle_total; [reflexivity | exact Hx | exact H].
  - apply (fle_total x (float_of_int 100)); [exact Hx | reflexivity | exact H].
Qed.

Lemma validate_packet_in_range (now : Z) (pkt : IoTPacket) :
  clock_ok now ->
  0 < sequence_no pkt ->
  in_interval (-20) 100 (temperature pkt) = true ->
  in_interval 0 100 (cpu_usage pkt) = true ->
  in_interval 0 100 (battery_level pkt) = true ->
  timestamp pkt <= now + 5 ->
  validate_packet now pkt = true.
Proof.
  intros Hclk Hs Ht Hc Hb Hts.
  apply in_interval_inside in Ht, Hc, Hb.
  destruct Ht as [T1 T2], Hc as [C1 C2], Hb as [B1 B2].
  rewrite validate_packet_formula, T1, T2, C1, C2, B1, B2.
  rewrite (clock_ok_add now Hclk). cbn [orb].
  destruct (Z.leb_spec (sequence_no pkt) 0); [lia | ].
  rewrite Z.gtb_ltb. destruct (Z.ltb_spec (now + 5) (timestamp pkt)); [lia | ].
  reflexivity.
Qed.

(** A NaN temperature is not inside [-20, 100], and the packet that
    carries it is accepted all the same: both range comparisons of the
    validator are false on a NaN. *)
Lemma nan_temperature_accepted :
  in_interval (-20) 100 (temperature nan_packet) = false /\
  validate_packet t0 nan_packet = true.
Proof. split; reflexivity. Qed.

(** The two inputs on which the boundary sentences fail as first
    written: a NaN temperature, which is not inside [-20, 100], is
    accepted; and at the last clock value of [std::time_t], where
    [now + 5] leaves the type, a packet with every field in range and a
    timestamp below [now + 5] is rejected. *)
Lemma boundaries_fail_on_nan_and_overflow :
  (in_interval (-20) 100 (temperature nan_packet) = false /\
   validate_packet t0 nan_packet = true) /\
  (0 < sequence_no (sample_packet 1) /\
   in_interval (-20) 100 (temperature (sample_packet 1)) = true /\
   in_interval 0 100 (cpu_usage (sample_packet 1)) = true /\
   in_interval 0 100 (battery_level (sample_packet 1)) = true /\
   timestamp (sample_packet 1) <= TIME_MAX + 5 /\
   validate_packet TIME_MAX (sample_packet 1) = false).
Proof.
  split; [split; reflexivity | ].
  split; [cbn; lia | ].
  do 3 (split; [reflexivity | ]).
  split; [cbn; unfold t0, TIME_MAX; lia | vm_compute; reflexivity].
Qed.

(** C7, amended.  At every clock value, every packet whose temperature is
    below -20 or above 100 is rejected, and so is every packet whose
    temperature is a number (not a NaN) outside [-20, 100].  At every
    clock value [now] to which 5 can be added without leaving
    [std::time_t]: with the other fields in range and the timestamp no
    later than [now + 5], a temperature of exactly -20 or exactly 100 is
    accepted, and so is every temperature inside the interval; a packet
    stamped [now + 6] is rejected. *)
Theorem validate_packet_boundaries (now : Z) (pkt : IoTPacket) :
  (below (temperature pkt) (-20) \/ above (temperature pkt) 100 ->
   validate_packet now pkt = false) /\
  (is_nan (temperature pkt) = false ->
   in_interval (-20) 100 (temperature pkt) = false ->
   validate_packet now pkt = false) /\
  (clock_ok now ->
   0 < sequence_no pkt ->
   in_interval 0 100 (cpu_usage pkt) = true ->
   in_interval 0 100 (battery_level pkt) = true ->
   timestamp pkt <= now + 5 ->
   (temperature pkt = float_of_int (-20) \/
    temperature pkt = float_of_int 100 \/
    in_interval (-20) 100 (temperature pkt) = true) ->
   validate_packet now pkt = true) /\
  (clock_ok now -> timestamp pkt = now + 6 -> validate_packet now pkt = false).
Proof.
  assert (Below : below (temperature pkt) (-20) \/ above (temperature pkt) 100 ->
                  validate_packet now pkt = false).
  { unfold below, above. intros H. apply validate_packet_false_iff. tauto. }
  split; [exact Below | split; [ | split] ].
  - intros Hn Ho. apply Below, in_interval_outside; assumption.
  - intros Hclk Hs Hc Hb Hts Ht.
    apply validate_packet_in_range; try assumption.
    destruct Ht as [-> | [-> | Ht]]; [reflexivity | reflexivity | exact Ht].
  - intros Hclk Hts. apply validate_packet_false_iff.
    rewrite (clock_ok_add now Hclk). do 7 right. lia.
Qed.

Lemma validate_packet_boundaries_witness :
  clock_ok t0 /\
  validate_packet t0 (sample_packet 1) = true /\
  validate_packet t0 (reading (float_of_int 101) 10) = false.
Proof.
  split; [exact clock_ok_t0 | split].
  - apply (proj1 (proj2 (proj2 (validate_packet_boundaries t0 (sample_packet 1))))).
    + exact clock_ok_t0.
    + cbn; lia.
    + reflexivity.
    + reflexivity.
    + cbn; unfold t0; lia.
    + right; right. reflexivity.
  - apply (proj1 (validate_packet_boundaries t0 _)).
    right. reflexivity.
Defined.

(** *** The anomaly classifier *)

(** C8.  [is_anomalous] is a function of the packet alone and returns
    [true] exactly when the temperature is above 60 or the packet rate is
    above 100: a temperature of 61 is anomalous, a temperature of 60 with
    a packet rate of at most 100 is not; a packet rate of 101 is
    anomalous, a packet rate of 100 with a temperature that is not above
    60 is not. *)
Theorem is_anomalous_iff (pkt : IoTPacket) :
  (is_anomalous pkt = true <->
   above (temperature pkt) 60 \/ packet_rate pkt > 100) /\
  (temperature pkt = float_of_int 61 -> is_anomalous pkt = true) /\
  (temperature pkt = float_of_int 60 -> packet_rate pkt <= 100 ->
   is_anomalous pkt = false) /\
  (packet_rate pkt = 101 -> is_anomalous pkt = true) /\
  (packet_rate pkt = 100 -> ~ above (temperature pkt) 60 ->
   is_anomalous pkt = false).
Proof.
  assert (Iff : is_anomalous pkt = true <->
                above (temperature pkt) 60 \/ packet_rate pkt > 100).
  { unfold is_anomalous, above.
    destruct (fgt (temperature pkt) (float_of_int 60)); [tauto | ].
    rewrite Z.gtb_ltb. destruct (Z.ltb_spec 100 (packet_rate pkt)).
    - split; [intros _; right; lia | reflexivity].
    - split; [discriminate | intros [H' | H']; [discriminate | lia]]. }
  split; [exact Iff | ].
  repeat split.
  - intros Ht. apply Iff. left. unfold above. rewrite Ht. reflexivity.
  - intros Ht Hr. apply not_true_is_false. intros E.
    apply Iff in E. unfold above in E. rewrite Ht in E.
    destruct E as [E | E]; [discriminate E | lia].
  - intros Hr. apply Iff. right. lia.
  - intros Hr Ht. apply not_true_is_false. intros E.
    apply Iff in E. destruct E as [E | E]; [contradiction | lia].
Qed.

Lemma is_anomalous_iff_witness :
  is_anomalous (reading (float_of_int 60) 100) = false /\
  is_anomalous (reading (float_of_int 61) 100) = true /\
  is_anomalous (reading (float_of_int 60) 101) = true.
Proof.
  split; [ | split].
  - apply (proj1 (proj2 (proj2 (is_anomalous_iff _)))).
    + reflexivity.
    + cbn. lia.
  - apply (proj1 (proj2 (is_anomalous_iff _))). reflexivity.
  - apply (proj1 (proj2 (proj2 (proj2 (is_anomalous_iff _))))). reflexivity.
Defined.

(** C10.  The verdict of [validate_packet] does not depend on [humidity]
    or [packet_rate]: two packets that agree on every other field get the
    same verdict at the same clock value, and replacing the two fields of
    a packet by any values whatever leaves its verdict unchanged. *)
Theorem validate_packet_ignores_humidity_and_rate (now : Z) (p q : IoTPacket) :
  device_id p = device_id q ->
  sequence_no p = sequence_no q ->
  temperature p = temperature q ->
  cpu_usage p = cpu_usage q ->
  battery_level p = battery_level q ->
  timestamp p = timestamp q ->
  validate_packet now p = validate_packet now q /\
  forall (h : float) (r : Z),
    validate_packet now
      {| device_id := device_id p; sequence_no := sequence_no p;
         temperature := temperature p; humidity := h; packet_rate := r;
         cpu_usage := cpu_usage p; battery_level := battery_level p;
         timestamp := timestamp p |} = validate_packet now q.
Proof.
  intros _ Hs Ht Hc Hb Hts. unfold validate_packet.
  cbn [sequence_no temperature cpu_usage battery_level timestamp].
  rewrite Hs, Ht, Hc, Hb, Hts. split; reflexivity.
Qed.

Lemma validate_packet_ignores_humidity_and_rate_witness :
  validate_packet t0 (sample_packet 1) =
  validate_packet t0
    {| device_id := "ESP32_SIM_01"; sequence_no := 1;
       temperature := float_of_int 25; humidity := S754_nan;
       packet_rate := INT_MAX;
       cpu_usage := float_of_int 20; battery_level := float_of_int 30;
       timestamp := t0 |}.
Proof.
  apply (validate_packet_ignores_humidity_and_rate t0); reflexivity.
Defined.

(** *** The gateway *)

Lemma process_packet_invalid (now : Z) (pkt : IoTPacket) (g : gateway) :
  validate_packet now pkt = false ->
  process_packet now pkt g =
  mkGateway (batch_buffer g) (cout g ++ invalid_line pkt).
Proof. unfold process_packet. intros ->. reflexivity. Qed.

Lemma process_packet_valid (now : Z) (pkt : IoTPacket) (g : gateway) :
  validate_packet now pkt = true ->
  process_packet now pkt g = flush_if_full (push_back pkt g).
Proof. unfold process_packet. intros ->. reflexivity. Qed.

Lemma flush_count_app (a b : list out_item) :
  flush_count (a ++ b) = (flush_count a + flush_count b)%nat.
Proof. unfold flush_count. rewrite filter_app, length_app. reflexivity. Qed.

Lemma flush_count_packet_lines (l : list IoTPacket) :
  flush_count (flat_map packet_line l) = 0%nat.
Proof.
  induction l as [ | p l IH]; [reflexivity | ].
  cbn [flat_map]. rewrite flush_count_app, IH. reflexivity.
Qed.

Lemma flush_count_invalid_line (pkt : IoTPacket) :
  flush_count (invalid_line pkt) = 0%nat.
Proof. reflexivity. Qed.

Lemma flush_count_send_batch (g : gateway) :
  flush_count (cout (send_batch_to_server g)) = S (flush_count (cout g)).
Proof.
  unfold send_batch_to_server. cbn [cout].
  change (batch_header :: flat_map packet_line (batch_buffer g))
    with ([batch_header] ++ flat_map packet_line (batch_buffer g)).
  rewrite !flush_count_app, flush_count_packet_lines.
  change (flush_count [batch_header]) with 1%nat. lia.
Qed.

(** C5.  A packet that fails validation leaves the buffer as it was,
    whatever the buffer holds: nothing is appended and nothing is flushed.
    The call returns, having written one diagnostic line that carries the
    sequence number of the rejected packet. *)
Theorem process_packet_rejected (now : Z) (pkt : IoTPacket) (g : gateway) :
  validate_packet now pkt = false ->
  batch_buffer (process_packet now pkt g) = batch_buffer g /\
  cout (process_packet now pkt g) =
    cout g ++ [ OLit "[INVALID PACKET DROPPED] Seq: ";
                OInt (sequence_no pkt); OEndl ] /\
  flush_count (cout (process_packet now pkt g)) = flush_count (cout g).
Proof.
  intros H. rewrite (process_packet_invalid now pkt g H). cbn [batch_buffer cout].
  repeat split. rewrite flush_count_app, flush_count_invalid_line. lia.
Qed.

Lemma process_packet_rejected_witness :
  batch_buffer (process_packet t0 (sample_packet 0)
                  (mkGateway [sample_packet 1; sample_packet 2] []))
  = [sample_packet 1; sample_packet 2].
Proof.
  apply (process_packet_rejected t0 (sample_packet 0)). reflexivity.
Defined.

Lemma process_all_app (a b : list (Z * IoTPacket)) (g : gateway) :
  process_all (a ++ b) g = process_all b (process_all a g).
Proof. unfold process_all. apply fold_left_app. Qed.

(** Valid packets pile up in order for as long as the threshold is not
    reached; nothing is written. *)
Lemma process_all_below (calls : list (Z * IoTPacket)) :
  forall g : gateway,
    Forall valid_call calls ->
    (List.length (batch_buffer g) + List.length calls < BATCH_SIZE)%nat ->
    process_all calls g =
    mkGateway (batch_buffer g ++ map snd calls) (cout g).
Proof.
  induction calls as [ | [now pkt] calls IH]; intros g Hv Hlen.
  - cbn. rewrite app_nil_r. destruct g; reflexivity.
  - inversion Hv as [ | c cs Hc Hcs]; subst. cbn [List.length] in Hlen.
    change (process_all ((now, pkt) :: calls) g)
      with (process_all calls (process_packet now pkt g)).
    rewrite (process_packet_valid now pkt g Hc).
    unfold flush_if_full, push_back. cbn [batch_buffer cout].
    rewrite length_app. cbn [List.length].
    destruct (Nat.leb_spec BATCH_SIZE (List.length (batch_buffer g) + 1)); [lia | ].
    rewrite IH; [ | assumption | cbn [batch_buffer]; rewrite length_app; cbn; lia].
    cbn [batch_buffer cout map snd]. rewrite <- app_assoc. reflexivity.
Qed.

(** The valid packet that brings the buffer to the threshold triggers the
    flush: the whole buffer goes out behind one header, oldest first. *)
Lemma process_all_fill (calls : list (Z * IoTPacket)) (g : gateway) :
  Forall valid_call calls ->
  calls <> [] ->
  (List.length (batch_buffer g) + List.length calls = BATCH_SIZE)%nat ->
  process_all calls g =
  mkGateway [] (cout g ++ batch_header ::
                flat_map packet_line (batch_buffer g ++ map snd calls)).
Proof.
  intros Hv Hne Hlen.
  destruct (exists_last Hne) as (front & [now pkt] & ->).
  apply Forall_app in Hv. destruct Hv as [Hf Hl].
  inversion Hl as [ | c cs Hc _]; subst.
  rewrite length_app in Hlen. cbn [List.length] in Hlen.
  rewrite process_all_app, (process_all_below front g Hf) by lia.
  change (process_all [(now, pkt)] ?x) with (process_packet now pkt x).
  rewrite (process_packet_valid now pkt _ Hc).
  unfold flush_if_full, push_back. cbn [batch_buffer cout].
  rewrite !length_app, length_map. cbn [List.length].
  destruct (Nat.leb_spec BATCH_SIZE
              (List.length (batch_buffer g) + List.length front + 1)); [ | lia].
  unfold send_batch_to_server. cbn [batch_buffer cout].
  rewrite map_app, app_assoc. reflexivity.
Qed.

(** C2.  From an empty buffer, [BATCH_SIZE] valid packets trigger exactly
    one flush -- none while the first four are processed, one with the
    fifth -- and leave the buffer empty; [BATCH_SIZE - 1] valid packets
    trigger no flush and leave all of them in the buffer. *)
Theorem threshold_flush (calls : list (Z * IoTPacket)) :
  Forall valid_call calls ->
  (List.length calls = BATCH_SIZE ->
   flush_count (cout (process_all calls gateway_init)) = 1%nat /\
   List.length (batch_buffer (process_all calls gateway_init)) = 0%nat /\
   flush_count (cout (process_all (removelast calls) gateway_init)) = 0%nat /\
   cout (process_all calls gateway_init) =
     batch_header :: flat_map packet_line (map snd calls)) /\
  (List.length calls = (BATCH_SIZE - 1)%nat ->
   flush_count (cout (process_all calls gateway_init)) = 0%nat /\
   List.length (batch_buffer (process_all calls gateway_init))
     = (BATCH_SIZE - 1)%nat /\
   batch_buffer (process_all calls gateway_init) = map snd calls).
Proof.
  intros Hv. split; intros Hlen.
  - assert (Hne : calls <> []) by (intros ->; discriminate Hlen).
    rewrite (process_all_fill calls gateway_init Hv Hne) by (cbn; lia).
    cbn [cout batch_buffer gateway_init app].
    destruct (exists_last Hne) as (front & c & ->).
    rewrite removelast_last.
    apply Forall_app in Hv. destruct Hv as [Hf _].
    rewrite length_app in Hlen. cbn [List.length] in Hlen.
    rewrite (process_all_below front gateway_init Hf) by (cbn; lia).
    cbn [cout gateway_init].
    change (batch_header :: ?l) with ([batch_header] ++ l).
    rewrite flush_count_app, flush_count_packet_lines.
    repeat split.
  - rewrite (process_all_below calls gateway_init Hv)
      by (unfold BATCH_SIZE in *; cbn; lia).
    cbn [cout batch_buffer gateway_init app]. rewrite length_map.
    repeat split. exact Hlen.
Qed.

Lemma sample_calls_valid (n : nat) :
  forall first : Z, 0 < first -> Forall valid_call (sample_calls n first).
Proof.
  induction n as [ | n IH]; intros first Hf; cbn [sample_calls]; constructor.
  - unfold valid_call. cbn [fst snd].
    apply validate_packet_in_range; try reflexivity; try exact clock_ok_t0.
    + exact Hf.
    + cbn; unfold t0; lia.
  - apply IH. lia.
Qed.

Lemma threshold_flush_witness :
  flush_count (cout (process_all (sample_calls 5 1) gateway_init)) = 1%nat /\
  flush_count (cout (process_all (sample_calls 4 1) gateway_init)) = 0%nat.
Proof.
  split.
  - apply (threshold_flush (sample_calls 5 1)).
    + apply sample_calls_valid. lia.
    + reflexivity.
  - apply (proj2 (threshold_flush (sample_calls 4 1)
                    (sample_calls_valid 4 1 ltac:(lia)))).
    reflexivity.
Defined.

(** *** The bound on the buffer *)

Lemma process_packet_keeps_bound (now : Z) (pkt : IoTPacket) (g : gateway) :
  (List.length (batch_buffer g) <= BATCH_SIZE - 1)%nat ->
  (List.length (batch_buffer (process_packet now pkt g)) <= BATCH_SIZE - 1)%nat.
Proof.
  intros H. unfold process_packet.
  destruct (validate_packet now pkt); cbn [negb batch_buffer]; [ | exact H].
  unfold flush_if_full.
  destruct (Nat.leb_spec BATCH_SIZE (List.length (batch_buffer (push_back pkt g))));
    [cbn; lia | lia].
Qed.

Lemma process_all_keeps_bound (calls : list (Z * IoTPacket)) :
  forall g : gateway,
    (List.length (batch_buffer g) <= BATCH_SIZE - 1)%nat ->
    (List.length (batch_buffer (process_all calls g)) <= BATCH_SIZE - 1)%nat.
Proof.
  induction calls as [ | [now pkt] calls IH]; intros g H; [exact H | ].
  apply (IH (process_packet now pkt g)).
  apply process_packet_keeps_bound, H.
Qed.

(** C6.  Whatever packets have been processed since the gateway started,
    the buffer holds at most [BATCH_SIZE - 1] packets when a call of
    [process_packet] has returned.  Inside the next call the [push_back]
    brings it to at most [BATCH_SIZE]; when it reaches [BATCH_SIZE] the
    flush runs within the same call and the call returns with an empty
    buffer.  The size [BATCH_SIZE] is in fact reached inside a call. *)
Theorem buffer_bounded (calls : list (Z * IoTPacket)) (now : Z) (pkt : IoTPacket) :
  let g := process_all calls gateway_init in
  (List.length (batch_buffer g) <= BATCH_SIZE - 1)%nat /\
  (List.length (batch_buffer (push_back pkt g)) <= BATCH_SIZE)%nat /\
  (List.length (batch_buffer (push_back pkt g)) = BATCH_SIZE ->
   flush_if_full (push_back pkt g) = send_batch_to_server (push_back pkt g) /\
   batch_buffer (flush_if_full (push_back pkt g)) = []) /\
  (List.length (batch_buffer (process_packet now pkt g)) <= BATCH_SIZE - 1)%nat /\
  (exists (calls' : list (Z * IoTPacket)) (now' : Z) (pkt' : IoTPacket),
      validate_packet now' pkt' = true /\
      List.length
        (batch_buffer (push_back pkt' (process_all calls' gateway_init)))
      = BATCH_SIZE).
Proof.
  intros g.
  assert (B : (List.length (batch_buffer g) <= BATCH_SIZE - 1)%nat).
  { apply process_all_keeps_bound. cbn. lia. }
  split; [exact B | ]. split; [ | split; [ | split]].
  - unfold push_back. cbn [batch_buffer]. rewrite length_app.
    unfold BATCH_SIZE in *. cbn [List.length]. lia.
  - intros E. unfold flush_if_full. rewrite E, Nat.leb_refl.
    split; reflexivity.
  - apply process_packet_keeps_bound, B.
  - exists (sample_calls 4 1), t0, (sample_packet 5). split; reflexivity.
Qed.

Lemma buffer_bounded_witness :
  batch_buffer
    (flush_if_full
       (push_back (sample_packet 5)
          (process_all (sample_calls 4 1) gateway_init))) = [].
Proof.
  apply (buffer_bounded (sample_calls 4 1) t0 (sample_packet 5)).
  reflexivity.
Defined.

(** *** Twelve packets *)

(** C4.  Twelve valid packets numbered 1 to 12, fed to an empty gateway,
    produce two flushes: the first when packet 5 is processed, the second
    when packet 10 is processed.  Each flush writes one header and then,
    for each of its five packets in order (1 to 5, then 6 to 10), the
    eight fields of the packet separated by commas and ended by
    [std::endl]; nothing else is written.  Packets 11 and 12 stay in the
    buffer and are not written. *)
Theorem twelve_packets (calls : list (Z * IoTPacket)) :
  Forall valid_call calls ->
  map (fun c => sequence_no (snd c)) calls = [1; 2; 3; 4; 5; 6; 7; 8; 9; 10; 11; 12] ->
  let pkts := map snd calls in
  let g := process_all calls gateway_init in
  let header := OLit (newline ++ "[SENDING BATCH TO SERVER]" ++ newline) in
  let written (p : IoTPacket) :=
    [ OStr (device_id p);       OLit ", ";
      OInt (sequence_no p);     OLit ", ";
      OFloat (temperature p);   OLit ", ";
      OFloat (humidity p);      OLit ", ";
      OInt (packet_rate p);     OLit ", ";
      OFloat (cpu_usage p);     OLit ", ";
      OFloat (battery_level p); OLit ", ";
      OTime (timestamp p);      OEndl ] in
  flush_count (cout g) = 2%nat /\
  cout g = batch_header :: flat_map packet_line (firstn 5 pkts) ++
           batch_header :: flat_map packet_line (firstn 5 (skipn 5 pkts)) /\
  map sequence_no (firstn 5 pkts) = [1; 2; 3; 4; 5] /\
  map sequence_no (firstn 5 (skipn 5 pkts)) = [6; 7; 8; 9; 10] /\
  batch_buffer g = skipn 10 pkts /\
  map sequence_no (batch_buffer g) = [11; 12] /\
  (forall k : nat,
      (k <= 12)%nat ->
      flush_count (cout (process_all (firstn k calls) gateway_init))
      = (k / BATCH_SIZE)%nat) /\
  List.length (firstn 5 pkts) = 5%nat /\
  List.length (firstn 5 (skipn 5 pkts)) = 5%nat /\
  (forall k : nat,
      (k <= 12)%nat ->
      cout (process_all (firstn k calls) gateway_init) =
      (if (5 <=? k)%nat
       then header :: flat_map written (firstn 5 pkts) else []) ++
      (if (10 <=? k)%nat
       then header :: flat_map written (firstn 5 (skipn 5 pkts)) else [])).
Proof.
  intros Hv Hseq pkts g header written. subst pkts g header written.
  do 12 (destruct calls as [ | [? ?] calls]; [discriminate Hseq | ]).
  destruct calls; [ | discriminate Hseq].
  repeat match goal with
         | H : Forall valid_call (_ :: _) |- _ => inversion_clear H
         end.
  unfold valid_call in *. cbn [fst snd] in *.
  cbn [map snd fst] in Hseq. injection Hseq as S1 S2 S3 S4 S5 S6 S7 S8 S9 S10 S11 S12.
  assert (P : forall n p g, validate_packet n p = true ->
                            process_packet n p g = flush_if_full (push_back p g))
    by (intros; apply process_packet_valid; assumption).
  repeat split;
    try (unfold process_all; cbn [fold_left fst snd map firstn skipn];
         rewrite ?P by assumption; cbn; rewrite ?app_nil_r;
         congruence).
  - intros k Hk.
    do 13 (destruct k as [ | k];
           [ unfold process_all; cbn [fold_left fst snd map firstn skipn];
             rewrite ?P by assumption; reflexivity | ]).
    lia.
  - intros k Hk.
    do 13 (destruct k as [ | k];
           [ unfold process_all; cbn [fold_left fst snd map firstn skipn];
             rewrite ?P by assumption; reflexivity | ]).
    lia.
Qed.

Lemma twelve_packets_witness :
  map sequence_no (batch_buffer (process_all (sample_calls 12 1) gateway_init))
  = [11; 12].
Proof.
  apply (twelve_packets (sample_calls 12 1)).
  - apply sample_calls_valid. lia.
  - reflexivity.
Defined.

(** *** Flushing *)

Lemma run_ops_buffer (ops : list buffer_op) :
  forall g : gateway,
    batch_buffer (run_ops ops g) =
    if existsb is_flush ops
    then appended_since_last_flush ops
    else batch_buffer g ++ appended_since_last_flush ops.
Proof.
  induction ops as [ | [pkt | ] ops IH]; intros g.
  - cbn. now rewrite app_nil_r.
  - change (run_ops (Append pkt :: ops) g) with (run_ops ops (push_back pkt g)).
    rewrite IH. cbn [existsb is_flush orb appended_since_last_flush].
    destruct (existsb is_flush ops); [reflexivity | ].
    cbn [push_back batch_buffer]. now rewrite <- app_assoc.
  - change (run_ops (Flush :: ops) g) with (run_ops ops (send_batch_to_server g)).
    rewrite IH. cbn [existsb is_flush orb appended_since_last_flush].
    destruct (existsb is_flush ops); reflexivity.
Qed.

Lemma run_ops_buffer_init (ops : list buffer_op) :
  batch_buffer (run_ops ops gateway_init) = appended_since_last_flush ops.
Proof.
  rewrite run_ops_buffer. cbn [gateway_init batch_buffer app].
  destruct (existsb is_flush ops); reflexivity.
Qed.

(** The lines written for a batch determine the batch: the same lines
    come from the same packets in the same order and number. *)
Lemma packet_lines_inj (l1 : list IoTPacket) :
  forall l2 : list IoTPacket,
    flat_map packet_line l1 = flat_map packet_line l2 -> l1 = l2.
Proof.
  induction l1 as [ | p l1 IH]; intros [ | q l2] H; cbn in H;
    try reflexivity; try discriminate H.
  injection H as Hid Hseq Ht Hh Hr Hc Hb Hts Hrest.
  f_equal; [ | apply IH, Hrest].
  destruct p, q; cbn in *; congruence.
Qed.

(** A valid packet is processed as an append, followed by a flush when
    the append has filled the buffer. *)
Lemma process_packet_as_ops (now : Z) (pkt : IoTPacket) (g : gateway) :
  validate_packet now pkt = true ->
  process_packet now pkt g =
  run_ops (if (BATCH_SIZE <=? S (List.length (batch_buffer g)))%nat
           then [Append pkt; Flush] else [Append pkt]) g.
Proof.
  intros H. rewrite (process_packet_valid now pkt g H).
  unfold flush_if_full, push_back. cbn [batch_buffer].
  rewrite length_app, Nat.add_1_r. cbn [List.length].
  destruct (BATCH_SIZE <=? S (List.length (batch_buffer g)))%nat; reflexivity.
Qed.

(** C3.  In every state, [send_batch_to_server] writes, behind one header,
    the line of every packet of the buffer, oldest first, each once, and
    returns with the buffer empty.  After any history of appends and
    flushes the buffer holds exactly the packets appended since the last
    flush, in append order, so those are the packets the next flush
    writes; and the lines written determine the packets. *)
Theorem flush_delivers_fifo (g : gateway) (ops : list buffer_op) :
  batch_buffer (send_batch_to_server g) = [] /\
  cout (send_batch_to_server g) =
    cout g ++ batch_header :: flat_map packet_line (batch_buffer g) /\
  batch_buffer (run_ops ops gateway_init) = appended_since_last_flush ops /\
  cout (run_ops (ops ++ [Flush]) gateway_init) =
    cout (run_ops ops gateway_init) ++
    batch_header :: flat_map packet_line (appended_since_last_flush ops) /\
  batch_buffer (run_ops (ops ++ [Flush]) gateway_init) = [] /\
  (forall l : list IoTPacket,
      flat_map packet_line l = flat_map packet_line (batch_buffer g) ->
      l = batch_buffer g).
Proof.
  split; [reflexivity | split; [reflexivity | ] ].
  split; [apply run_ops_buffer_init | ].
  unfold run_ops. rewrite fold_left_app. fold (run_ops ops gateway_init).
  cbn [fold_left apply_op send_batch_to_server cout batch_buffer].
  rewrite run_ops_buffer_init.
  split; [reflexivity | split; [reflexivity | ] ].
  intros l. apply packet_lines_inj.
Qed.

Lemma flush_delivers_fifo_witness :
  [sample_packet 1; sample_packet 2] =
  batch_buffer (mkGateway [sample_packet 1; sample_packet 2] []).
Proof.
  apply (flush_delivers_fifo
           (mkGateway [sample_packet 1; sample_packet 2] []) []).
  reflexivity.
Defined.

(** *** The packet source *)

Lemma wrap_signed_succ (z : Z) :
  int_add (wrap_signed 32 z) 1 = wrap_signed 32 (z + 1).
Proof.
  unfold int_add, wrap_signed.
  replace ((z + 2 ^ (32 - 1)) mod 2 ^ 32 - 2 ^ (32 - 1) + 1 + 2 ^ (32 - 1))
    with ((z + 2 ^ (32 - 1)) mod 2 ^ 32 + 1) by lia.
  rewrite Z.add_mod_idemp_l by (cbn; lia).
  f_equal. f_equal. lia.
Qed.

Lemma gen_iter (env : gen_env) (n : N) :
  N.iter n (gen_step env) (0%N, 0) = (n, wrap_signed 32 (Z.of_N n)).
Proof.
  induction n as [ | n IH] using N.peano_ind; [reflexivity | ].
  rewrite N.iter_succ, IH. unfold gen_step, generate_packet. cbn [fst snd].
  rewrite wrap_signed_succ, N2Z.inj_succ. reflexivity.
Qed.

Lemma seq_counter_after_eq (env : gen_env) (n : N) :
  seq_counter_after env n = wrap_signed 32 (Z.of_N n).
Proof. unfold seq_counter_after. rewrite gen_iter. reflexivity. Qed.

Lemma nth_generated_sequence_no (env : gen_env) (n : N) :
  (1 <= n)%N ->
  sequence_no (nth_generated env n) = wrap_signed 32 (Z.of_N n).
Proof.
  intros Hn. unfold nth_generated, generate_packet. cbn [fst sequence_no].
  rewrite seq_counter_after_eq, wrap_signed_succ. f_equal. lia.
Qed.

(** The call number 2^31 cannot return the sequence number 2^31: an [int]
    has no such value, and the increment of the counter, which holds
    [INT_MAX] by then, leaves the range. *)
Lemma generator_leaves_int_range :
  sequence_no (nth_generated still_env 2147483648) <> Z.of_N 2147483648.
Proof.
  rewrite nth_generated_sequence_no by discriminate.
  vm_compute. discriminate.
Qed.

(** C9, amended.  For every [n] from 1 to [INT_MAX], the [n]-th call of
    [generate_packet] returns a packet whose sequence number is [n] and
    whose timestamp is the clock value read by that call; over these
    calls the sequence numbers increase strictly. *)
Theorem generator_sequence (env : gen_env) (n : N) :
  (1 <= n)%N ->
  Z.of_N n <= INT_MAX ->
  sequence_no (nth_generated env n) = Z.of_N n /\
  timestamp (nth_generated env n) = fst (env (N.pred n)) /\
  (forall m : N,
      (1 <= m < n)%N ->
      sequence_no (nth_generated env m) < sequence_no (nth_generated env n)).
Proof.
  intros Hn Hmax.
  assert (E : forall k : N, (1 <= k <= n)%N ->
                            sequence_no (nth_generated env k) = Z.of_N k).
  { intros k Hk. rewrite nth_generated_sequence_no by lia.
    apply wrap_signed_small; [lia | ].
    unfold INT_MAX in Hmax. change (32 - 1) with 31. lia. }
  split; [apply E; lia | split; [reflexivity | ] ].
  intros m Hm. rewrite !E by lia. lia.
Qed.

Lemma generator_sequence_witness :
  sequence_no (nth_generated still_env 3) = 3.
Proof.
  apply (generator_sequence still_env 3).
  - discriminate.
  - unfold INT_MAX. cbn. lia.
Defined.

(** *** The reference run of [main] *)

Lemma float_order_table_ok : float_order_table = true.
Proof. vm_compute. reflexivity. Qed.

Lemma float_of_int_order (c v : Z) :
  In c float_bounds -> 0 <= v <= 128 ->
  flt (float_of_int v) (float_of_int c) = (v <? c) /\
  fgt (float_of_int v) (float_of_int c) = (c <? v) /\
  fle (float_of_int c) (float_of_int v) = (c <=? v) /\
  fle (float_of_int v) (float_of_int c) = (v <=? c).
Proof.
  intros Hc Hv.
  assert (Hin : In v small_readings).
  { unfold small_readings. apply in_map_iff. exists (Z.to_nat v).
    split; [lia | apply in_seq; lia]. }
  pose proof float_order_table_ok as T. unfold float_order_table in T.
  rewrite forallb_forall in T. specialize (T c Hc).
  rewrite forallb_forall in T. specialize (T v Hin).
  rewrite !andb_true_iff in T. destruct T as [[[T1 T2] T3] T4].
  apply eqb_prop in T1, T2, T3, T4. tauto.
Qed.

Lemma in_interval_small (lo hi v : Z) :
  In lo float_bounds -> In hi float_bounds -> 0 <= v <= 128 ->
  in_interval lo hi (float_of_int v) = (lo <=? v) && (v <=? hi).
Proof.
  intros Hlo Hhi Hv. unfold in_interval.
  destruct (float_of_int_order lo v Hlo Hv) as (_ & _ & -> & _).
  destruct (float_of_int_order hi v Hhi Hv) as (_ & _ & _ & ->).
  reflexivity.
Qed.

(** A generated reading [base + rand() % span] is the exact sum and lies
    in [base, base + span). *)
Lemma generated_reading (base span r : Z) :
  0 <= base -> 0 < span -> base + span <= 128 -> 0 <= r ->
  int_add base (Z.rem r span) = base + Z.rem r span /\
  base <= base + Z.rem r span < base + span.
Proof.
  intros Hb Hs Hbs Hr.
  pose proof (Z.rem_bound_pos r span Hr Hs) as B.
  split; [ | lia].
  apply int_add_exact. unfold INT_MIN, INT_MAX. lia.
Qed.

(** Every packet the simulator generates passes validation, provided its
    sequence number is positive and its timestamp is not ahead of the
    gateway clock by more than the tolerance. *)
Lemma generated_packet_valid (now : Z) (d : draws) (c : Z) (now' : Z) :
  draws_ok d -> clock_ok now' -> now <= now' + 5 -> 0 <= c < INT_MAX ->
  sequence_no (fst (generate_packet now d c)) = c + 1 /\
  snd (generate_packet now d c) = c + 1 /\
  validate_packet now' (fst (generate_packet now d c)) = true.
Proof.
  intros (Dt & Dh & Dr & Dc & Db) Hclk Hts Hc.
  assert (Hseq : int_add c 1 = c + 1).
  { apply int_add_exact. unfold INT_MIN, INT_MAX in *. lia. }
  unfold generate_packet. cbn [fst snd sequence_no]. rewrite Hseq.
  split; [reflexivity | split; [reflexivity | ] ].
  destruct (generated_reading 25 10 (draw_temperature d)) as [E1 B1]; try lia.
  destruct (generated_reading 20 60 (draw_cpu_usage d)) as [E2 B2]; try lia.
  destruct (generated_reading 30 70 (draw_battery_level d)) as [E3 B3]; try lia.
  apply validate_packet_in_range;
    cbn [sequence_no temperature cpu_usage battery_level timestamp];
    try assumption; try lia.
  - rewrite E1, in_interval_small by first [cbn; tauto | lia].
    apply andb_true_iff. split; apply Z.leb_le; lia.
  - rewrite E2, in_interval_small by first [cbn; tauto | lia].
    apply andb_true_iff. split; apply Z.leb_le; lia.
  - rewrite E3, in_interval_small by first [cbn; tauto | lia].
    apply andb_true_iff. split; apply Z.leb_le; lia.
Qed.

Lemma flush_count_device_log (pkt : IoTPacket) :
  flush_count (device_log pkt) = 0%nat.
Proof. reflexivity. Qed.

Ltac div_mod_facts k :=
  pose proof (Nat.div_mod_eq k 5);
  pose proof (Nat.mod_upper_bound k 5 ltac:(discriminate)).

(** *** Runs of the gateway of any length *)

Lemma count_literal_app (s : string) (a b : list out_item) :
  count_literal s (a ++ b) = (count_literal s a + count_literal s b)%nat.
Proof. unfold count_literal. rewrite filter_app, length_app. reflexivity. Qed.

Lemma count_literal_packet_lines (s : string) (l : list IoTPacket) :
  s <> ", "%string -> count_literal s (flat_map packet_line l) = 0%nat.
Proof.
  intros Hs. induction l as [ | p l IH]; [reflexivity | ].
  cbn [flat_map]. rewrite count_literal_app, IH.
  unfold count_literal, packet_line. cbn [filter is_literal].
  destruct (String.eqb_spec ", " s) as [E | _]; [congruence | reflexivity].
Qed.

Lemma without_headers_app (a b : list out_item) :
  without_headers (a ++ b) = without_headers a ++ without_headers b.
Proof. apply filter_app. Qed.

Lemma without_headers_packet_lines (l : list IoTPacket) :
  without_headers (flat_map packet_line l) = flat_map packet_line l.
Proof.
  induction l as [ | p l IH]; [reflexivity | ].
  cbn [flat_map]. rewrite without_headers_app, IH. reflexivity.
Qed.

Lemma accepted_app (a b : list (Z * IoTPacket)) :
  accepted (a ++ b) = accepted a ++ accepted b.
Proof. unfold accepted. rewrite filter_app, map_app. reflexivity. Qed.

Lemma accepted_all_valid (calls : list (Z * IoTPacket)) :
  Forall valid_call calls -> accepted calls = map snd calls.
Proof.
  unfold accepted. induction 1 as [ | c calls Hc _ IH]; [reflexivity | ].
  cbn [filter]. unfold valid_call in Hc. unfold validb at 1.
  rewrite Hc. cbn [map]. now rewrite IH.
Qed.

(** The state of the gateway after any sequence of calls, in terms of the
    packets accepted so far. *)
Lemma process_all_state (calls : list (Z * IoTPacket)) :
  let g := process_all calls gateway_init in
  let acc := accepted calls in
  let m := List.length acc in
  batch_buffer g = skipn (BATCH_SIZE * (m / BATCH_SIZE)) acc /\
  flush_count (cout g) = (m / BATCH_SIZE)%nat /\
  (count_literal invalid_text (cout g) + m = List.length calls)%nat /\
  (Forall valid_call calls ->
   without_headers (cout g) =
   flat_map packet_line (firstn (BATCH_SIZE * (m / BATCH_SIZE)) acc)).
Proof.
  unfold BATCH_SIZE.
  induction calls as [ | [now pkt] calls IH] using rev_ind.
  - cbn. repeat split.
  - cbn zeta in *. destruct IH as (Hb & Hf & Hi & Hl).
    rewrite process_all_app, accepted_app, !length_app.
    change (process_all [(now, pkt)] ?x) with (process_packet now pkt x).
    set (g := process_all calls gateway_init) in *.
    set (acc := accepted calls) in *.
    set (m := List.length acc) in *.
    div_mod_facts m.
    assert (Hlen : List.length (batch_buffer g) = (m mod 5)%nat).
    { rewrite Hb, length_skipn. fold m. lia. }
    assert (Hone : accepted [(now, pkt)] =
                   if validate_packet now pkt then [pkt] else []).
    { unfold accepted, validb. cbn [filter fst snd].
      destruct (validate_packet now pkt); reflexivity. }
    rewrite Hone. clear Hone. cbn [List.length].
    destruct (validate_packet now pkt) eqn:V.
    + cbn [map List.length app].
      rewrite (process_packet_valid now pkt g V).
      unfold flush_if_full, push_back, BATCH_SIZE. cbn [batch_buffer cout].
      rewrite length_app, Hlen. cbn [List.length].
      div_mod_facts (m + 1)%nat.
      destruct (Nat.leb_spec 5 (m mod 5 + 1)) as [Hfull | Hroom].
      * assert (Hq : ((m + 1) / 5 = S (m / 5))%nat) by lia.
        rewrite Hq. unfold send_batch_to_server. cbn [batch_buffer cout].
        change (batch_header :: ?l) with ([batch_header] ++ l).
        rewrite !flush_count_app, flush_count_packet_lines, Hf.
        rewrite !count_literal_app,
          (count_literal_packet_lines invalid_text) by discriminate.
        change (flush_count [batch_header]) with 1%nat.
        change (count_literal invalid_text [batch_header]) with 0%nat.
        split; [ | split; [lia | split; [lia | ] ] ].
        -- symmetry. apply skipn_all2. rewrite length_app.
           cbn [List.length]. fold m. lia.
        -- intros Hv. apply Forall_app in Hv. destruct Hv as [Hv _].
           rewrite !without_headers_app, (Hl Hv), without_headers_packet_lines.
           change (without_headers [batch_header]) with (@nil out_item).
           cbn [app]. rewrite Hb, <- flat_map_app, app_assoc, firstn_skipn.
           f_equal. symmetry. apply firstn_all2.
           rewrite length_app. cbn [List.length]. fold m. lia.
      * assert (Hq : ((m + 1) / 5 = m / 5)%nat) by lia.
        cbn [batch_buffer cout]. rewrite Hq, Hf.
        split; [ | split; [reflexivity | split; [lia | ] ] ].
        -- rewrite Hb, skipn_app.
           replace (5 * (m / 5) - List.length acc)%nat with 0%nat
             by (fold m; lia).
           reflexivity.
        -- intros Hv. apply Forall_app in Hv. destruct Hv as [Hv _].
           rewrite (Hl Hv), firstn_app.
           replace (5 * (m / 5) - List.length acc)%nat with 0%nat
             by (fold m; lia).
           cbn [firstn]. now rewrite app_nil_r.
    + cbn [map List.length app]. rewrite app_nil_r, Nat.add_0_r.
      rewrite (process_packet_invalid now pkt g V). cbn [batch_buffer cout].
      rewrite flush_count_app, flush_count_invalid_line, count_literal_app.
      change (count_literal invalid_text (invalid_line pkt)) with 1%nat.
      split; [exact Hb | split; [lia | split; [lia | ] ] ].
      intros Hv. apply Forall_app in Hv. destruct Hv as [_ Hv].
      inversion Hv as [ | c cs Hc _]; subst.
      unfold valid_call in Hc. cbn [fst snd] in Hc. congruence.
Qed.

(** X1.  A run of any number [n] of valid packets from the empty gateway
    flushes [n / BATCH_SIZE] times and never writes a diagnostic.  The
    lines written, headers apart, are those of the first
    [BATCH_SIZE * (n / BATCH_SIZE)] packets in arrival order, each once;
    the remaining [n mod BATCH_SIZE] packets are the buffer, in arrival
    order. *)
Theorem valid_run_batches (calls : list (Z * IoTPacket)) :
  Forall valid_call calls ->
  let n := List.length calls in
  let g := process_all calls gateway_init in
  flush_count (cout g) = (n / BATCH_SIZE)%nat /\
  count_literal invalid_text (cout g) = 0%nat /\
  without_headers (cout g) =
    flat_map packet_line
      (firstn (BATCH_SIZE * (n / BATCH_SIZE)) (map snd calls)) /\
  batch_buffer g = skipn (BATCH_SIZE * (n / BATCH_SIZE)) (map snd calls) /\
  List.length (batch_buffer g) = (n mod BATCH_SIZE)%nat.
Proof.
  intros Hv n g.
  destruct (process_all_state calls) as (Hb & Hf & Hi & Hl).
  rewrite (accepted_all_valid calls Hv), length_map in *.
  fold n g in Hb, Hf, Hi, Hl.
  split; [exact Hf | split; [lia | split; [exact (Hl Hv) | split; [exact Hb | ] ] ] ].
  rewrite Hb, length_skipn, length_map. fold n. unfold BATCH_SIZE.
  div_mod_facts n. lia.
Qed.

Lemma valid_run_batches_witness :
  flush_count (cout (process_all (sample_calls 23 1) gateway_init)) = 4%nat.
Proof.
  apply (valid_run_batches (sample_calls 23 1)).
  apply sample_calls_valid. lia.
Defined.

Lemma filter_validb_valid (calls : list (Z * IoTPacket)) :
  Forall valid_call (filter validb calls).
Proof.
  apply Forall_forall. intros c Hc. apply filter_In in Hc. exact (proj2 Hc).
Qed.

Lemma accepted_filter (calls : list (Z * IoTPacket)) :
  accepted (filter validb calls) = accepted calls.
Proof.
  unfold accepted. f_equal.
  induction calls as [ | c calls IH]; [reflexivity | ].
  cbn [filter]. destruct (validb c) eqn:V; [ | exact IH].
  cbn [filter]. rewrite V, IH. reflexivity.
Qed.

(** X2.  Rejected packets are invisible to the batching: after any
    sequence of calls the buffer and the number of flushes are those of
    the same run with the rejected calls left out.  Each rejected call
    leaves exactly one diagnostic on the output, an accepted call none. *)
Theorem rejected_calls_invisible (calls : list (Z * IoTPacket)) :
  let g := process_all calls gateway_init in
  let g' := process_all (filter validb calls) gateway_init in
  batch_buffer g = batch_buffer g' /\
  flush_count (cout g) = flush_count (cout g') /\
  count_literal invalid_text (cout g) =
    List.length (filter (fun c => negb (validb c)) calls) /\
  count_literal invalid_text (cout g') = 0%nat.
Proof.
  intros g g'.
  destruct (process_all_state calls) as (Hb & Hf & Hi & _).
  destruct (process_all_state (filter validb calls)) as (Hb' & Hf' & Hi' & _).
  rewrite accepted_filter in Hb', Hf', Hi'.
  fold g in Hb, Hf, Hi. fold g' in Hb', Hf', Hi'.
  assert (Hacc : List.length (accepted calls)
                 = List.length (filter validb calls))
    by (unfold accepted; apply length_map).
  pose proof (filter_length validb calls) as Hsplit.
  split; [congruence | split; [congruence | split; lia] ].
Qed.

(** X3.  [process_packet] flushes exactly when the packet is valid and the
    buffer already holds at least [BATCH_SIZE - 1] packets; the batch then
    written is the whole buffer followed by the new packet, however many
    packets the buffer held.  After a valid packet the buffer is below
    [BATCH_SIZE] again, whatever its size was before the call. *)
Theorem process_packet_flush_iff (now : Z) (pkt : IoTPacket) (g : gateway) :
  let g' := process_packet now pkt g in
  (flush_count (cout g') = S (flush_count (cout g)) <->
   validate_packet now pkt = true /\
   (BATCH_SIZE - 1 <= List.length (batch_buffer g))%nat) /\
  (flush_count (cout g') = flush_count (cout g) \/
   flush_count (cout g') = S (flush_count (cout g))) /\
  (flush_count (cout g') = S (flush_count (cout g)) ->
   batch_buffer g' = [] /\
   cout g' = cout g ++ batch_header ::
             flat_map packet_line (batch_buffer g ++ [pkt])) /\
  (validate_packet now pkt = true ->
   (List.length (batch_buffer g') <= BATCH_SIZE - 1)%nat).
Proof.
  intros g'. subst g'. unfold BATCH_SIZE.
  destruct (validate_packet now pkt) eqn:V.
  - rewrite (process_packet_valid now pkt g V).
    unfold flush_if_full, push_back, BATCH_SIZE. cbn [batch_buffer cout].
    rewrite length_app. cbn [List.length].
    destruct (Nat.leb_spec 5 (List.length (batch_buffer g) + 1)) as [Hfull | Hroom].
    + rewrite flush_count_send_batch. cbn [batch_buffer cout send_batch_to_server].
      repeat split; try lia; intros; cbn [List.length]; lia.
    + cbn [batch_buffer cout]. rewrite length_app. cbn [List.length].
      repeat split; try lia; intros; lia.
  - rewrite (process_packet_invalid now pkt g V). cbn [batch_buffer cout].
    rewrite flush_count_app, flush_count_invalid_line.
    repeat split; try lia; try discriminate; intros; try lia.
Qed.

(** X4.  Validation has no staleness check and the clock only matters as
    an upper bound: a packet accepted at one clock value is accepted at
    every later one, and stays accepted when its timestamp is moved back
    to any earlier time. *)
Theorem validate_packet_clock_monotone (now now' ts : Z) (pkt : IoTPacket) :
  clock_ok now -> clock_ok now' -> now <= now' -> ts <= timestamp pkt ->
  validate_packet now pkt = true ->
  validate_packet now' pkt = true /\
  validate_packet now'
    {| device_id := device_id pkt; sequence_no := sequence_no pkt;
       temperature := temperature pkt; humidity := humidity pkt;
       packet_rate := packet_rate pkt; cpu_usage := cpu_usage pkt;
       battery_level := battery_level pkt; timestamp := ts |} = true.
Proof.
  intros Hc Hc' Hle Hts.
  rewrite !validate_packet_formula, !negb_true_iff, !orb_false_iff.
  cbn [sequence_no temperature cpu_usage battery_level timestamp].
  rewrite (clock_ok_add now Hc), (clock_ok_add now' Hc').
  rewrite !Z.gtb_ltb, !Z.ltb_ge.
  intros [H Hnow]. split; (split; [exact H | lia]).
Qed.

Lemma validate_packet_clock_monotone_witness :
  validate_packet (t0 + 3600) (sample_packet 1) = true.
Proof.
  apply (validate_packet_clock_monotone t0 (t0 + 3600) 0 (sample_packet 1)).
  - exact clock_ok_t0.
  - unfold clock_ok, t0, TIME_MIN, TIME_MAX. lia.
  - lia.
  - cbn. unfold t0. lia.
  - reflexivity.
Defined.

(** *** The loop of [main] *)

Lemma main_iteration_step (k : nat) (w : world) (e : tick) :
  tick_ok e -> Z.of_nat k < INT_MAX ->
  after_iterations k w -> after_iterations (S k) (main_iteration w e).
Proof.
  intros (Hd & Hclk & Hts) Hk (Hc & Hf & Hb & Hlog & Hinv).
  destruct (generated_packet_valid (gen_time e) (gen_draws e) (seq_counter w)
              (gate_time e) Hd Hclk Hts ltac:(lia)) as (Hseq & Hcnt & Hval).
  unfold main_iteration.
  destruct (generate_packet (gen_time e) (gen_draws e) (seq_counter w))
    as [pkt c] eqn:G.
  cbn [fst snd] in Hseq, Hcnt, Hval. subst c.
  rewrite (process_packet_valid _ _ _ Hval).
  assert (Hlen : List.length (batch_buffer (gw w)) = (k mod 5)%nat).
  { rewrite <- (length_map sequence_no), Hb, length_map, length_seq.
    reflexivity. }
  unfold after_iterations, BATCH_SIZE in *. cbn [seq_counter gw].
  split; [lia | ].
  unfold flush_if_full, push_back, BATCH_SIZE. cbn [batch_buffer cout].
  rewrite length_app, Hlen. cbn [List.length].
  div_mod_facts k. div_mod_facts (S k).
  assert (Hlog1 : count_literal device_log_text (device_log pkt) = 1%nat)
    by reflexivity.
  assert (Hinv0 : count_literal invalid_text (device_log pkt) = 0%nat)
    by reflexivity.
  destruct (Nat.leb_spec 5 (k mod 5 + 1)) as [Hfull | Hroom].
  - unfold send_batch_to_server. cbn [batch_buffer cout].
    change (batch_header :: ?l) with ([batch_header] ++ l).
    rewrite !flush_count_app, flush_count_device_log,
      flush_count_packet_lines, Hf.
    rewrite !count_literal_app, Hlog, Hinv, Hlog1, Hinv0,
      !count_literal_packet_lines by discriminate.
    change (flush_count [batch_header]) with 1%nat.
    change (count_literal device_log_text [batch_header]) with 0%nat.
    change (count_literal invalid_text [batch_header]) with 0%nat.
    assert (Hm : (S k mod 5 = 0)%nat) by lia.
    assert (Hq : (S k / 5 = S (k / 5))%nat) by lia.
    rewrite Hm, Hq.
    split; [lia | split; [reflexivity | split; lia] ].
  - cbn [batch_buffer cout].
    rewrite flush_count_app, flush_count_device_log, Hf.
    rewrite !count_literal_app, Hlog, Hinv, Hlog1, Hinv0.
    assert (Hm : (S k mod 5 = S (k mod 5))%nat) by lia.
    assert (Hq : (S k / 5 = k / 5)%nat) by lia.
    rewrite Hm, Hq. split; [lia | split; [ | split; lia] ].
    rewrite map_app, Hb, seq_S, map_app. cbn [map].
    do 2 f_equal. lia.
Qed.

Lemma main_loop_steps (env : list tick) :
  forall (k : nat) (w : world),
    Forall tick_ok env ->
    Z.of_nat (k + List.length env) <= INT_MAX ->
    after_iterations k w ->
    after_iterations (k + List.length env) (main_loop env w).
Proof.
  induction env as [ | e env IH]; intros k w Hok Hmax Hin.
  - cbn. rewrite Nat.add_0_r. exact Hin.
  - inversion Hok as [ | e' env' He Henv]; subst.
    cbn [List.length] in *.
    change (main_loop (e :: env) w) with (main_loop env (main_iteration w e)).
    replace (k + S (List.length env))%nat with (S k + List.length env)%nat by lia.
    apply IH; [assumption | lia | ].
    apply main_iteration_step; [assumption | lia | assumption].
Qed.

Lemma after_iterations_init : after_iterations 0 world_init.
Proof. repeat split. Qed.

(** An iteration whose packet is accepted, step by step. *)
Lemma main_iteration_accepts (w : world) (e : tick) :
  tick_ok e -> 0 <= seq_counter w < INT_MAX ->
  main_iteration w e =
  mkWorld (seq_counter w + 1)
    (flush_if_full
       (push_back
          (fst (generate_packet (gen_time e) (gen_draws e) (seq_counter w)))
          (mkGateway (batch_buffer (gw w))
             (cout (gw w) ++
              device_log
                (fst (generate_packet (gen_time e) (gen_draws e)
                        (seq_counter w))))))).
Proof.
  intros (Hd & Hclk & Hts) Hc.
  destruct (generated_packet_valid (gen_time e) (gen_draws e) (seq_counter w)
              (gate_time e) Hd Hclk Hts Hc) as (_ & Hcnt & Hval).
  unfold main_iteration.
  destruct (generate_packet (gen_time e) (gen_draws e) (seq_counter w))
    as [pkt c] eqn:G.
  cbn [fst snd] in *. subst c.
  rewrite (process_packet_valid _ _ _ Hval). reflexivity.
Qed.

(** X9.  The run of [main], under an environment whose draws are values of
    [rand()] and whose clock neither overflows nor stamps a packet more
    than five seconds ahead of the gateway.  With [p i] the packet
    generated in iteration [i], the output is exactly: the device-log
    lines of packets 1 to 5, a header and the lines of packets 1 to 5,
    the device-log lines of packets 6 to 10, a header and the lines of
    packets 6 to 10, the device-log lines of packets 11 and 12.  So twelve
    device-log lines are written, no packet is dropped, two batches are
    flushed, and the packets numbered 11 and 12 are left in the buffer
    when [main] returns: they are logged but never sent.  The counter
    ends at 12. *)
Theorem main_reference_run (env : nat -> tick) :
  (forall i : nat, (i < 12)%nat -> tick_ok (env i)) ->
  let p (i : nat) :=
    fst (generate_packet (gen_time (env i)) (gen_draws (env i)) (Z.of_nat i)) in
  let header := OLit (newline ++ "[SENDING BATCH TO SERVER]" ++ newline) in
  let logged (pkt : IoTPacket) :=
    [ OLit "[DEVICE LOG] "; OStr (device_id pkt);
      OLit " Seq:";     OInt (sequence_no pkt);
      OLit " Temp:";    OFloat (temperature pkt);
      OLit " CPU:";     OFloat (cpu_usage pkt);
      OLit " Battery:"; OFloat (battery_level pkt);
      OEndl ] in
  let written (pkt : IoTPacket) :=
    [ OStr (device_id pkt);       OLit ", ";
      OInt (sequence_no pkt);     OLit ", ";
      OFloat (temperature pkt);   OLit ", ";
      OFloat (humidity pkt);      OLit ", ";
      OInt (packet_rate pkt);     OLit ", ";
      OFloat (cpu_usage pkt);     OLit ", ";
      OFloat (battery_level pkt); OLit ", ";
      OTime (timestamp pkt);      OEndl ] in
  seq_counter (main env) = 12 /\
  count_literal device_log_text (cout (gw (main env))) = 12%nat /\
  count_literal invalid_text (cout (gw (main env))) = 0%nat /\
  flush_count (cout (gw (main env))) = 2%nat /\
  map sequence_no (batch_buffer (gw (main env))) = [11; 12] /\
  batch_buffer (gw (main env)) = [p 10%nat; p 11%nat] /\
  cout (gw (main env)) =
    flat_map logged (map p [0; 1; 2; 3; 4]%nat) ++
    header :: flat_map written (map p [0; 1; 2; 3; 4]%nat) ++
    flat_map logged (map p [5; 6; 7; 8; 9]%nat) ++
    header :: flat_map written (map p [5; 6; 7; 8; 9]%nat) ++
    flat_map logged (map p [10; 11]%nat).
Proof.
  intros Hok p header logged written.
  assert (A : after_iterations (0 + List.length (map env (seq 0 12)))
                (main env)).
  { apply main_loop_steps.
    - apply Forall_forall. intros e He. apply in_map_iff in He.
      destruct He as (i & <- & Hi). apply in_seq in Hi. apply Hok. lia.
    - unfold INT_MAX. cbn. lia.
    - exact after_iterations_init. }
  destruct A as (A1 & A2 & A3 & A4 & A5).
  split; [exact A1 | split; [exact A4 | split; [exact A5 | split] ] ];
    [exact A2 | split; [exact A3 | ] ].
  assert (E : main env =
              mkWorld 12
                (mkGateway [p 10%nat; p 11%nat]
                   (flat_map logged (map p [0; 1; 2; 3; 4]%nat) ++
                    header :: flat_map written (map p [0; 1; 2; 3; 4]%nat) ++
                    flat_map logged (map p [5; 6; 7; 8; 9]%nat) ++
                    header :: flat_map written (map p [5; 6; 7; 8; 9]%nat) ++
                    flat_map logged (map p [10; 11]%nat)))).
  { unfold main, main_loop, world_init, gateway_init.
    cbn [map seq fold_left].
    repeat match goal with
           | |- context [main_iteration (mkWorld ?c ?g) ?e] =>
               rewrite (main_iteration_accepts (mkWorld c g) e)
                 by first [ apply Hok; lia
                          | cbn [seq_counter]; unfold INT_MAX; lia ];
               unfold flush_if_full, push_back, send_batch_to_server, BATCH_SIZE;
               cbn [seq_counter gw batch_buffer cout List.length app Nat.leb]
           end.
    reflexivity. }
  rewrite E. split; reflexivity.
Qed.

Lemma still_tick_ok : tick_ok still_tick.
Proof.
  unfold tick_ok, still_tick, draws_ok, clock_ok, RAND_MAX, TIME_MIN, TIME_MAX.
  cbn. lia.
Qed.

Lemma main_reference_run_witness :
  flush_count (cout (gw (main (fun _ => still_tick)))) = 2%nat.
Proof.
  apply (main_reference_run (fun _ => still_tick)).
  intros i _. exact still_tick_ok.
Defined.

(** X10.  The loop body of [main] iterated any number [n] of times (up to
    [INT_MAX]) from the initial state: [n] device-log lines, no dropped
    packet, [n / BATCH_SIZE] flushes, and the last [n mod BATCH_SIZE]
    packets, numbered up to [n], left in the buffer. *)
Theorem main_loop_any_length (env : list tick) :
  Forall tick_ok env ->
  Z.of_nat (List.length env) <= INT_MAX ->
  let n := List.length env in
  let w := main_loop env world_init in
  seq_counter w = Z.of_nat n /\
  count_literal device_log_text (cout (gw w)) = n /\
  count_literal invalid_text (cout (gw w)) = 0%nat /\
  flush_count (cout (gw w)) = (n / BATCH_SIZE)%nat /\
  map sequence_no (batch_buffer (gw w)) =
    map Z.of_nat (seq (BATCH_SIZE * (n / BATCH_SIZE) + 1) (n mod BATCH_SIZE)).
Proof.
  intros Hok Hmax n w.
  destruct (main_loop_steps env 0 world_init Hok Hmax after_iterations_init)
    as (A1 & A2 & A3 & A4 & A5).
  cbn [Nat.add] in *. fold n w in A1, A2, A3, A4, A5.
  split; [exact A1 | split; [exact A4 | split; [exact A5 | split] ] ].
  - exact A2.
  - exact A3.
Qed.

Lemma main_loop_any_length_witness :
  flush_count (cout (gw (main_loop (repeat still_tick 7) world_init))) = 1%nat.
Proof.
  apply (main_loop_any_length (repeat still_tick 7)).
  - apply Forall_forall. intros e He. apply repeat_spec in He. subst e.
    exact still_tick_ok.
  - unfold INT_MAX. cbn. lia.
Defined.

(** *** Validity and anomaly *)

Lemma flt_false_fle (x y : float) :
  is_nan x = false -> is_nan y = false -> flt x y = false -> fle y x = true.
Proof.
  unfold fle, flt, SFleb, SFltb. rewrite (SFcompare_antisym x y).
  destruct x, y; cbn [is_nan]; try discriminate; intros _ _;
    destruct (SFcompare _ _) as [[ | | ] | ] eqn:E; cbn; try congruence;
    cbn in E; repeat match type of E with
                     | context [if ?b then _ else _] => destruct b
                     end; discriminate.
Qed.

Lemma nan_compares_false (x y : float) :
  is_nan x = true -> flt x y = false /\ fgt x y = false.
Proof.
  destruct x; cbn [is_nan]; try discriminate. intros _.
  unfold flt, fgt, SFltb. destruct y; split; reflexivity.
Qed.

(** One range check of the validator passes exactly on a NaN and on the
    readings inside the interval. *)
Lemma range_check_iff (lo hi : Z) (x : float) :
  is_nan (float_of_int lo) = false -> is_nan (float_of_int hi) = false ->
  (flt x (float_of_int lo) = false /\ fgt x (float_of_int hi) = false <->
   is_nan x = true \/ in_interval lo hi x = true).
Proof.
  intros Hlo Hhi. split.
  - intros [H1 H2]. destruct (is_nan x) eqn:N; [now left | right].
    unfold in_interval. apply andb_true_iff. split.
    + apply flt_false_fle; assumption.
    + apply (flt_false_fle (float_of_int hi) x); assumption.
  - intros [N | I]; [ | apply in_interval_inside, I].
    split; [apply (nan_compares_false x (float_of_int lo) N)
           | apply (nan_compares_false x (float_of_int hi) N)].
Qed.

(** X8.  The exact set of accepted packets: positive sequence number,
    timestamp no later than [now + 5], and each of temperature, CPU usage
    and battery level either inside its interval or a NaN.  A NaN in any
    of the three checked float fields is never a reason for rejection. *)
Theorem validate_packet_accepts_iff (now : Z) (pkt : IoTPacket) :
  clock_ok now ->
  (validate_packet now pkt = true <->
   0 < sequence_no pkt /\
   (is_nan (temperature pkt) = true \/
    in_interval (-20) 100 (temperature pkt) = true) /\
   (is_nan (cpu_usage pkt) = true \/
    in_interval 0 100 (cpu_usage pkt) = true) /\
   (is_nan (battery_level pkt) = true \/
    in_interval 0 100 (battery_level pkt) = true) /\
   timestamp pkt <= now + 5).
Proof.
  intros Hclk.
  rewrite <- !range_check_iff by reflexivity.
  rewrite validate_packet_formula, negb_true_iff, !orb_false_iff.
  rewrite (clock_ok_add now Hclk), Z.leb_gt, Z.gtb_ltb, Z.ltb_ge.
  tauto.
Qed.

Lemma validate_packet_accepts_iff_witness :
  validate_packet t0
    {| device_id := "ESP32_SIM_01"; sequence_no := 1;
       temperature := S754_nan; humidity := S754_nan; packet_rate := 0;
       cpu_usage := S754_nan; battery_level := S754_nan;
       timestamp := t0 |} = true.
Proof.
  apply (validate_packet_accepts_iff t0 _ clock_ok_t0).
  cbn [sequence_no temperature cpu_usage battery_level timestamp is_nan].
  split; [lia | ]. split; [now left | ]. split; [now left | ].
  split; [now left | ]. unfold t0. lia.
Defined.

(** X5.  The gateway never consults the anomaly classifier: raising the
    packet rate of any packet above 100 makes it anomalous and leaves its
    verdict unchanged, so an accepted packet made anomalous in this way is
    still appended to the buffer. *)
Theorem anomaly_does_not_gate_acceptance
  (now : Z) (pkt : IoTPacket) (r : Z) (g : gateway) :
  100 < r ->
  let pkt' :=
    {| device_id := device_id pkt; sequence_no := sequence_no pkt;
       temperature := temperature pkt; humidity := humidity pkt;
       packet_rate := r; cpu_usage := cpu_usage pkt;
       battery_level := battery_level pkt; timestamp := timestamp pkt |} in
  is_anomalous pkt' = true /\
  validate_packet now pkt' = validate_packet now pkt /\
  (validate_packet now pkt = true ->
   process_packet now pkt' g = flush_if_full (push_back pkt' g)).
Proof.
  intros Hr pkt'.
  assert (V : validate_packet now pkt' = validate_packet now pkt) by reflexivity.
  split; [ | split; [exact V | ] ].
  - unfold is_anomalous. subst pkt'. cbn [temperature packet_rate].
    destruct (fgt (temperature pkt) (float_of_int 60)); [reflexivity | ].
    rewrite Z.gtb_ltb. destruct (Z.ltb_spec 100 r); [reflexivity | lia].
  - intros H. apply process_packet_valid. congruence.
Qed.

Lemma anomaly_does_not_gate_acceptance_witness :
  is_anomalous (reading (float_of_int 25) 500) = true /\
  validate_packet t0 (reading (float_of_int 25) 500) = true.
Proof.
  destruct (anomaly_does_not_gate_acceptance t0 (reading (float_of_int 25) 10)
              500 gateway_init ltac:(lia)) as (A & V & _).
  split; [exact A | ]. exact (eq_trans V eq_refl).
Defined.

(** X6.  A temperature that the validator rejects as too high (above 100)
    is also above the anomaly threshold: every packet rejected for that
    reason is classified anomalous. *)
Theorem too_hot_is_anomalous (now : Z) (pkt : IoTPacket) :
  above (temperature pkt) 100 ->
  validate_packet now pkt = false /\ is_anomalous pkt = true.
Proof.
  unfold above. intros H. split.
  - apply validate_packet_false_iff. tauto.
  - unfold is_anomalous.
    replace (fgt (temperature pkt) (float_of_int 60)) with true; [reflexivity | ].
    symmetry. revert H. unfold fgt, SFltb.
    change (float_of_int 100) with (S754_finite false 13107200 (-17)).
    change (float_of_int 60) with (S754_finite false 15728640 (-18)).
    destruct (temperature pkt) as [s | s | | s m e]; cbn [SFcompare];
      try (destruct s); try discriminate; try reflexivity.
    destruct (Z.compare_spec (-17) e) as [E | E | E];
      destruct (Z.compare_spec (-18) e) as [E' | E' | E'];
      try discriminate; try reflexivity; try lia.
Qed.

Lemma too_hot_is_anomalous_witness :
  is_anomalous (reading (float_of_int 101) 10) = true.
Proof.
  apply (too_hot_is_anomalous t0 (reading (float_of_int 101) 10)).
  reflexivity.
Defined.

(** *** What the simulator generates *)

(** X7.  Whatever [rand()] returns, a generated packet carries the fixed
    device id, the clock value of the call, and whole-number readings:
    temperature 25..34, humidity 45..64, packet rate 10..19, CPU usage
    20..79, battery level 30..99; it is never anomalous.  When the counter
    [c] satisfies [0 <= c < INT_MAX], the packet is numbered [c + 1] and
    passes validation at every gateway clock value [now'] to which 5 can
    be added without leaving [std::time_t] and which the timestamp does
    not exceed by more than five seconds. *)
Theorem generated_packet_profile (now : Z) (d : draws) (c : Z) :
  draws_ok d ->
  let p := fst (generate_packet now d c) in
  device_id p = "ESP32_SIM_01"%string /\
  timestamp p = now /\
  (exists t, 25 <= t <= 34 /\ temperature p = float_of_int t) /\
  (exists h, 45 <= h <= 64 /\ humidity p = float_of_int h) /\
  10 <= packet_rate p <= 19 /\
  (exists u, 20 <= u <= 79 /\ cpu_usage p = float_of_int u) /\
  (exists b, 30 <= b <= 99 /\ battery_level p = float_of_int b) /\
  is_anomalous p = false /\
  (0 <= c < INT_MAX ->
   sequence_no p = c + 1 /\
   forall now' : Z,
     clock_ok now' -> now <= now' + 5 -> validate_packet now' p = true).
Proof.
  intros Hd p. pose proof Hd as (Dt & Dh & Dr & Dc & Db).
  assert (Hval : 0 <= c < INT_MAX ->
                 sequence_no p = c + 1 /\
                 forall now' : Z,
                   clock_ok now' -> now <= now' + 5 ->
                   validate_packet now' p = true).
  { intros Hc. split.
    - subst p. unfold generate_packet. cbn [fst sequence_no].
      apply int_add_exact. unfold INT_MIN, INT_MAX in *. lia.
    - intros now' Hclk Hts.
      apply (generated_packet_valid now d c now' Hd Hclk Hts Hc). }
  destruct (generated_reading 25 10 (draw_temperature d)) as [E1 B1]; try lia.
  destruct (generated_reading 45 20 (draw_humidity d)) as [E2 B2]; try lia.
  destruct (generated_reading 10 10 (draw_packet_rate d)) as [E3 B3]; try lia.
  destruct (generated_reading 20 60 (draw_cpu_usage d)) as [E4 B4]; try lia.
  destruct (generated_reading 30 70 (draw_battery_level d)) as [E5 B5]; try lia.
  assert (Hanom : is_anomalous p = false).
  { subst p. unfold is_anomalous, generate_packet.
    cbn [fst temperature packet_rate]. rewrite E1, E3.
    destruct (float_of_int_order 60 (25 + Z.rem (draw_temperature d) 10))
      as (_ & -> & _); [cbn; tauto | lia | ].
    destruct (Z.ltb_spec 60 (25 + Z.rem (draw_temperature d) 10)); [lia | ].
    rewrite Z.gtb_ltb.
    destruct (Z.ltb_spec 100 (10 + Z.rem (draw_packet_rate d) 10)); [lia | ].
    reflexivity. }
  split; [reflexivity | split; [reflexivity | ] ].
  split.
  { exists (25 + Z.rem (draw_temperature d) 10). split; [lia | ].
    subst p. unfold generate_packet. cbn [fst temperature]. now rewrite E1. }
  split.
  { exists (45 + Z.rem (draw_humidity d) 20). split; [lia | ].
    subst p. unfold generate_packet. cbn [fst humidity]. now rewrite E2. }
  split.
  { subst p. unfold generate_packet. cbn [fst packet_rate]. rewrite E3. lia. }
  split.
  { exists (20 + Z.rem (draw_cpu_usage d) 60). split; [lia | ].
    subst p. unfold generate_packet. cbn [fst cpu_usage]. now rewrite E4. }
  split.
  { exists (30 + Z.rem (draw_battery_level d) 70). split; [lia | ].
    subst p. unfold generate_packet. cbn [fst battery_level]. now rewrite E5. }
  split; [exact Hanom | exact Hval].
Qed.

Lemma generated_packet_profile_witness :
  is_anomalous (fst (generate_packet t0 (mkDraws 7 7 7 7 7) 0)) = false.
Proof.
  apply (generated_packet_profile t0 (mkDraws 7 7 7 7 7) 0).
  unfold draws_ok, RAND_MAX. cbn. lia.
Defined.

(** *** What the buffer holds *)

(** X11.  Nothing that failed validation is ever in the buffer: after any
    sequence of calls, every buffered packet arrived in one of the calls
    and passed validation at the clock value of that call; in particular
    its sequence number is positive. *)
Theorem buffer_holds_accepted_only (calls : list (Z * IoTPacket)) (p : IoTPacket) :
  In p (batch_buffer (process_all calls gateway_init)) ->
  (exists now : Z, In (now, p) calls /\ validate_packet now p = true) /\
  0 < sequence_no p.
Proof.
  intros Hin.
  destruct (process_all_state calls) as (Hb & _). rewrite Hb in Hin.
  assert (Hacc : In p (accepted calls)).
  { rewrite <- (firstn_skipn (BATCH_SIZE *
                  (List.length (accepted calls) / BATCH_SIZE)) (accepted calls)).
    apply in_or_app. now right. }
  unfold accepted in Hacc. apply in_map_iff in Hacc.
  destruct Hacc as ([now q] & Hq & Hf). cbn [snd] in Hq. subst q.
  apply filter_In in Hf. destruct Hf as [Hc Hv]. unfold validb in Hv.
  cbn [fst snd] in Hv.
  split; [exists now; split; assumption | ].
  rewrite validate_packet_formula, negb_true_iff, !orb_false_iff in Hv.
  apply Z.leb_gt. tauto.
Qed.

Lemma buffer_holds_accepted_only_witness :
  0 < sequence_no (sample_packet 3).
Proof.
  apply (buffer_holds_accepted_only (sample_calls 3 1) (sample_packet 3)).
  cbn. tauto.
Defined.

Lemma process_packet_flush_iff_witness :
  batch_buffer
    (process_packet t0 (sample_packet 9)
       (mkGateway (map (fun k => sample_packet k) [1; 2; 3; 4; 5; 6; 7; 8]) []))
  = [].
Proof.
  apply (process_packet_flush_iff t0 (sample_packet 9)). reflexivity.
Defined.
